(** * The HCI transport of gatt (package [linux], file linux/linux.go)

    A shallow embedding of the packet demultiplexer ([mainLoop],
    [handlePacket] and its handlers), of the bring-up sequencer
    ([ResetDevice]) and of the constructor [NewHCI], followed by the
    properties of the transport that the specification states.

    The packages [cmd], [device], [event] and [l2cap] are imported by the
    file and are not part of it: their operations are the fields of the
    class [Collaborators] below, each one a transition on an abstract
    world that may return, panic or exit. *)

From Stdlib Require Import ZArith Lia Strings.Byte.
From stdpp Require Import base option list gmap strings.

Set Default Proof Using "Type".

(** ** Go values *)

(** An [error] is identified by its message; the interface value [nil] is
    [None] in [option error]. *)
Definition error : Type := string.

(** [type PacketType uint8] *)
Definition PacketType : Type := byte.

Definition ptypeCommandPkt : PacketType := x01.
Definition ptypeACLDataPkt : PacketType := x02.
Definition ptypeSCODataPkt : PacketType := x03.
Definition ptypeEventPkt : PacketType := x04.
Definition ptypeVendorPkt : PacketType := xff.

Definition byte_to_Z (b : byte) : Z := Z.of_N (Byte.to_N b).

(** Conversion and arithmetic at [uint16] wrap modulo 2^16. *)
Definition uint16 (z : Z) : Z := z mod 65536.

(** Run-time panics raised by the statements of the file. *)
Inductive panic : Type :=
| IndexOutOfRange (i len : nat)
| SliceBoundsOutOfRange (i len : nat)
| MakesliceLenOutOfRange (n : Z)
| NilDereference
| ForeignPanic (msg : string).

(** How a call ends: it returns, it panics, or the process exits
    ([os.Exit], reached through [log.Fatalf]). *)
Inductive outcome (A : Type) : Type :=
| Ret (a : A)
| Panic (p : panic)
| Exit (code : Z).
Arguments Ret {A} a.
Arguments Panic {A} p.
Arguments Exit {A} code.

(** ** Commands of the bring-up tables

    The parameter structs of package [cmd] that the two tables build,
    with the fields the tables set. *)
Inductive CmdParam : Type :=
| Reset
| SetEventMask (EventMask : Z)
| LESetEventMask (LEEventMask : Z)
| WriteSimplePairingMode (SimplePairingMode : Z)
| WriteLEHostSupported (LESupportedHost SimultaneousLEHost : Z)
| WriteInquiryMode (InquiryMode : Z)
| WritePageScanType (PageScanType : Z)
| WriteInquiryScanType (ScanType : Z)
| WriteClassOfDevice (ClassOfDevice : byte * byte * byte)
| WritePageTimeout (PageTimeout : Z)
| WriteDefaultLinkPolicy (DefaultLinkPolicySettings : Z)
| HostBufferSize (HostACLDataPacketLength HostSynchronousDataPacketLength
                  HostTotalNumACLDataPackets
                  HostTotalNumSynchronousDataPackets : Z).

Record cmdSeq : Type := mkCmdSeq { cp : CmdParam; exp : list byte }.

Definition expSuccess : list byte := [x00].

Definition bcmResetSeq : list cmdSeq :=
  [ mkCmdSeq (WriteSimplePairingMode 1) expSuccess;
    mkCmdSeq (WriteLEHostSupported 1 0) expSuccess;
    mkCmdSeq (WriteInquiryMode 2) expSuccess;
    mkCmdSeq (WritePageScanType 1) expSuccess;
    mkCmdSeq (WriteInquiryScanType 1) expSuccess;
    mkCmdSeq (WriteClassOfDevice (x40, x02, x04)) expSuccess;
    mkCmdSeq (WritePageTimeout 0x2000) expSuccess;
    mkCmdSeq (WriteDefaultLinkPolicy 0x5) expSuccess;
    mkCmdSeq (HostBufferSize 0x1000 0xff 0x0014 0x000a) expSuccess ].

Definition defaultResetSeq : list cmdSeq :=
  [ mkCmdSeq Reset expSuccess;
    mkCmdSeq (SetEventMask 0x3dbff807fffbffff) expSuccess;
    mkCmdSeq (LESetEventMask 0x000000000000001F) expSuccess ].

(** ** The monad: a state, and the three ways a call can end *)

Definition M (S A : Type) : Type := S -> S * outcome A.

Definition ret {S A} (a : A) : M S A := fun s => (s, Ret a).

Definition bind {S A B} (m : M S A) (k : A -> M S B) : M S B :=
  fun s =>
    match m s with
    | (s', Ret a) => k a s'
    | (s', Panic p) => (s', Panic p)
    | (s', Exit c) => (s', Exit c)
    end.

Definition raise {S A} (p : panic) : M S A := fun s => (s, Panic p).

(** [os.Exit(code)] *)
Definition os_Exit {S A} (code : Z) : M S A := fun s => (s, Exit code).

Declare Scope go_scope.
Delimit Scope go_scope with go.
Notation "x <- m ;; k" := (bind m (fun x => k))
  (at level 100, m at next level, right associativity) : go_scope.
Notation "m ;;; k" := (bind m (fun _ => k))
  (at level 100, right associativity) : go_scope.

(** ** What the transport does that can be observed *)

(** The five handlers [handlePacket] can call. *)
Inductive PktHandler : Type :=
| H_handleCmd
| H_HandleL2CAP
| H_handleSCO
| H_Dispatch
| H_handleVendor.

(** The lines written through package [log], one constructor for each
    format string of the file. *)
Inductive LogEntry : Type :=
| LogFailedToRead (err : error)
| LogReadZero
| LogUnknownEvent (t : PacketType) (b : list byte)
| LogHci (err : error) (b : list byte)
| LogUnmanagedCmd (op : Z).

(** Pointers are addresses.  [nil] is [None] in an [option]. *)
Abbreviation loc := nat (only parsing).
Abbreviation DevRef := nat (only parsing).
Abbreviation CmdRef := nat (only parsing).
Abbreviation L2CRef := nat (only parsing).
Abbreviation Logger := nat (only parsing).

(** The callbacks [NewHCI] registers: method values bound to the L2CAP
    object and to the command object. *)
Inductive Handler : Type :=
| HandleLEMeta (r : L2CRef)
| HandleDisconnectionComplete (r : L2CRef)
| HandleNumberOfCompletedPkts (r : L2CRef)
| HandleComplete (r : CmdRef)
| HandleStatus (r : CmdRef).

(** Modelled from the spec: the type [event.Event] is not in the file.
    The Event Subsystem "holds a fixed mapping of event-code -> handler",
    one handler for a code. *)
Record event_Event : Type := mkEvent { evtHandlers : gmap Z Handler }.

(** [type HCI struct] *)
Record HCI : Type := mkHCI {
  dev : option DevRef;
  logger : option Logger;
  cmd : option CmdRef;
  evt : option loc;
  l2c : option L2CRef
}.

Inductive Action : Type :=
| ANewSocket (id : Z)
| ANewCmd (d : DevRef) (l : option Logger)
| ANewL2CAP (c : CmdRef) (d : DevRef) (l : option Logger) (maxConn : Z)
| ANewEvent (l : option Logger)
| AHandleEvent (e : loc) (code : Z) (f : Handler)
| ARead (buflen : nat)
| AGo (p : list byte)
| ACall (f : PktHandler) (b : list byte)
| ASend (c : option CmdRef) (s : cmdSeq)
| ALog (l : LogEntry).

(** The operations of the imported packages.  [W] is the state of
    everything outside the file: the controller link and the three
    subsystems.  A constructor returns, with the address of the object it
    built; the other operations may also panic or exit.  The event codes
    are constants of package [event]. *)
Class Collaborators : Type := {
  W : Type;
  LEMeta : Z;
  DisconnectionComplete : Z;
  NumberOfCompletedPkts : Z;
  CommandComplete : Z;
  CommandStatus : Z;
  (* device.NewSocket(n): a device, or an error *)
  device_NewSocket : Z -> W -> W * (DevRef + error);
  (* cmd.NewCmd(d, l) *)
  cmd_NewCmd : DevRef -> option Logger -> W -> W * CmdRef;
  (* l2cap.NewL2CAP(c, d, l, maxConn) *)
  l2cap_NewL2CAP :
    CmdRef -> DevRef -> option Logger -> Z -> W -> W * L2CRef;
  (* d.Read(b): the buffer after the call, n and err *)
  dev_Read : DevRef -> list byte -> W ->
             W * outcome (list byte * Z * option error);
  (* l2c.HandleL2CAP(b) *)
  l2c_HandleL2CAP : option L2CRef -> list byte -> W ->
                    W * outcome (option error);
  (* e.Dispatch(b); the receiver is given by the table it holds *)
  evt_Dispatch : option event_Event -> list byte -> W ->
                 W * outcome (option error);
  (* c.SendAndCheckResp(cp, exp) *)
  cmd_SendAndCheckResp : option CmdRef -> CmdParam -> list byte -> W ->
                         W * outcome (option error)
}.

(** ** Slices *)

(** [b[i]] *)
Definition index {S} (b : list byte) (i : nat) : M S byte :=
  match b !! i with
  | Some x => ret x
  | None => raise (IndexOutOfRange i (length b))
  end.

(** [b[i:]] *)
Definition slice_from {S} (b : list byte) (i : nat) : M S (list byte) :=
  if (i <=? length b)%nat then ret (drop i b)
  else raise (SliceBoundsOutOfRange i (length b)).

(** [make([]byte, n)] *)
Definition make {S} (n : Z) : M S (list byte) :=
  if (n <? 0)%Z then raise (MakesliceLenOutOfRange n)
  else ret (replicate (Z.to_nat n) x00).

(** [copy(dst, src)]: the first min(len dst, len src) bytes of [dst] are
    overwritten. *)
Definition copy (dst src : list byte) : list byte :=
  take (length dst) src ++ drop (length src) dst.

Section Transport.

Context `{Collaborators}.
Local Open Scope go_scope.

Record State : Type := mkState {
  world : W;
  heap : gmap loc event_Event;
  trace : list Action
}.

Definition emit (a : Action) : M State unit :=
  fun s => (mkState (world s) (heap s) (trace s ++ [a]), Ret tt).

(** A call into a collaborator. *)
Definition foreign {A} (f : W -> W * outcome A) : M State A :=
  fun s => let '(w, r) := f (world s) in
           (mkState w (heap s) (trace s), r).

(** A call of a constructor of a collaborator: it returns. *)
Definition construct {A} (f : W -> W * A) : M State A :=
  fun s => let '(w, a) := f (world s) in
           (mkState w (heap s) (trace s), Ret a).

(** The object a pointer to an [event.Event] points to. *)
Definition deref (e : option loc) : M State (option event_Event) :=
  fun s => (s, Ret (e ≫= fun a => heap s !! a)).

(** [log.Printf] *)
Definition log_Printf (l : LogEntry) : M State unit := emit (ALog l).

(** [log.Fatalf]: Printf followed by [os.Exit(1)]. *)
Definition log_Fatalf {A} (l : LogEntry) : M State A :=
  emit (ALog l) ;;; os_Exit 1.

(** [func (h HCI) Cmd() *cmd.Cmd], and the two other accessors. *)
Definition Cmd (h : HCI) : option CmdRef := cmd h.
Definition Event (h : HCI) : option loc := evt h.
Definition L2CAP (h : HCI) : option L2CRef := l2c h.

(** ** The handlers *)

Definition handleCmd (h : HCI) (b : list byte) : M State (option error) :=
  b0 <- index b 0 ;;
  b1 <- index b 1 ;;
  let op := Z.lor (uint16 (byte_to_Z b0))
                  (uint16 (Z.shiftl (uint16 (byte_to_Z b1)) 8)) in
  log_Printf (LogUnmanagedCmd op) ;;;
  ret None.

Definition handleSCO (h : HCI) (b : list byte) : M State (option error) :=
  ret (Some "SCO packet not supported"%string).

Definition handleVendor (h : HCI) (b : list byte)
  : M State (option error) :=
  ret (Some "Vendor packet not supported"%string).

(** Every call of a handler is recorded by an [ACall] before the
    handler runs. *)
Definition handlePacket (h : HCI) (b : list byte) : M State unit :=
  t <- index b 0 ;;
  b <- slice_from b 1 ;;
  err <-
    (if Byte.eqb t ptypeCommandPkt then
       emit (ACall H_handleCmd b) ;;; handleCmd h b
     else if Byte.eqb t ptypeACLDataPkt then
       emit (ACall H_HandleL2CAP b) ;;;
       foreign (l2c_HandleL2CAP (l2c h) b)
     else if Byte.eqb t ptypeSCODataPkt then
       emit (ACall H_handleSCO b) ;;; handleSCO h b
     else if Byte.eqb t ptypeEventPkt then
       emit (ACall H_Dispatch b) ;;;
       e <- deref (evt h) ;;
       foreign (evt_Dispatch e b)
     else if Byte.eqb t ptypeVendorPkt then
       emit (ACall H_handleVendor b) ;;; handleVendor h b
     else
       log_Fatalf (LogUnknownEvent t b)) ;;
  match err with
  | Some e => log_Printf (LogHci e b)
  | None => ret tt
  end.

(** ** The read loop *)

Inductive LoopStatus : Type :=
| Returned   (* [mainLoop] has returned *)
| Reading.   (* the loop is about to issue its next read *)

(** The body of [for { ... }] in [mainLoop]; [fuel] bounds the number of
    iterations that are followed.  [go h.handlePacket(p)] is recorded by
    [AGo p]: the goroutine runs [handlePacket] on [p] on its own, and the
    loop does not wait for it. *)
Fixpoint loop (fuel : nat) (h : HCI) (b : list byte)
  : M State LoopStatus :=
  match fuel with
  | O => ret Reading
  | S fuel' =>
      emit (ARead (length b)) ;;;
      r <- match dev h with
           | Some d => foreign (dev_Read d b)
           | None => raise NilDereference
           end ;;
      let '(b, n, err) := r in
      match err with
      | Some e => log_Printf (LogFailedToRead e) ;;; ret Returned
      | None =>
          if (n =? 0)%Z then log_Printf LogReadZero ;;; ret Returned
          else
            p <- make n ;;
            let p := copy p b in
            emit (AGo p) ;;;
            loop fuel' h b
      end
  end.

Definition mainLoop (fuel : nat) (h : HCI) : M State LoopStatus :=
  b <- make 4096 ;;
  loop fuel h b.

(** ** Bring-up *)

(** [for _, s := range seq { if err := ...; err != nil { return err } }];
    [None] when the loop runs to its end. *)
Fixpoint forRange (h : HCI) (seq : list cmdSeq) : M State (option error) :=
  match seq with
  | [] => ret None
  | s :: seq' =>
      emit (ASend (Cmd h) s) ;;;
      err <- foreign (cmd_SendAndCheckResp (Cmd h) (cp s) (exp s)) ;;
      match err with
      | Some e => ret (Some e)
      | None => forRange h seq'
      end
  end.

Definition ResetDevice (h : HCI) : M State (option error) :=
  err <- forRange h defaultResetSeq ;;
  match err with
  | Some e => ret (Some e)
  | None =>
      err <- forRange h bcmResetSeq ;;
      match err with
      | Some e => ret (Some e)
      | None => ret None
      end
  end.

(** ** Construction *)

(** Modelled from the spec: [event.NewEvent] is not in the file.  It
    builds the Event Subsystem, whose table is "populated during
    construction" by the registrations that follow: a new object with
    an empty table. *)
Definition event_NewEvent (l : option Logger) : M State loc :=
  emit (ANewEvent l) ;;;
  fun s =>
    let e := fresh (dom (heap s)) in
    (mkState (world s) (<[e := mkEvent ∅]> (heap s)) (trace s), Ret e).

(** Modelled from the spec: the method [HandleEvent] of [event.Event] is
    not in the file.  "registerHandler(eventCode, handlerFn)" binds the
    code to the handler in the table, "one handler per code, no
    chaining". *)
Definition HandleEvent (e : loc) (code : Z) (f : Handler) : M State unit :=
  emit (AHandleEvent e code f) ;;;
  fun s =>
    match heap s !! e with
    | Some ev =>
        (mkState (world s)
                 (<[e := mkEvent (<[code := f]> (evtHandlers ev))]> (heap s))
                 (trace s), Ret tt)
    | None => (s, Panic NilDereference)
    end.

Definition NewSocket (id : Z) : M State (DevRef + error) :=
  emit (ANewSocket id) ;;; construct (device_NewSocket id).

Definition NewHCI (l : option Logger) (maxConn : Z) : M State (option HCI) :=
  r <- NewSocket 1 ;;
  d <- match r with
       | inl d => ret (Some d)
       | inr _ =>
           r <- NewSocket 0 ;;
           match r with
           | inl d => ret (Some d)
           | inr _ => ret None
           end
       end ;;
  match d with
  | None => ret None
  | Some d =>
      c <- (emit (ANewCmd d l) ;;; construct (cmd_NewCmd d l)) ;;
      l2c <- (emit (ANewL2CAP c d l maxConn) ;;;
              construct (l2cap_NewL2CAP c d l maxConn)) ;;
      e <- event_NewEvent l ;;
      let h := mkHCI (Some d) None (Some c) (Some e) (Some l2c) in
      HandleEvent e LEMeta (HandleLEMeta l2c) ;;;
      HandleEvent e DisconnectionComplete
                  (HandleDisconnectionComplete l2c) ;;;
      HandleEvent e NumberOfCompletedPkts
                  (HandleNumberOfCompletedPkts l2c) ;;;
      HandleEvent e CommandComplete (HandleComplete c) ;;;
      HandleEvent e CommandStatus (HandleStatus c) ;;;
      ret (Some h)
  end.

End Transport.

Arguments State {_}.
Arguments mkState {_} world heap trace.

(** ** Reading a trace *)

(** The handler calls recorded in a trace, oldest first. *)
Definition invocations (tr : list Action) : list (PktHandler * list byte) :=
  omap (fun a => match a with ACall f b => Some (f, b) | _ => None end) tr.

(** The commands sent to the Command Subsystem, oldest first. *)
Definition sends (tr : list Action) : list cmdSeq :=
  omap (fun a => match a with ASend _ s => Some s | _ => None end) tr.

(** The reads issued on the link (the length of the buffer of each). *)
Definition reads (tr : list Action) : list nat :=
  omap (fun a => match a with ARead n => Some n | _ => None end) tr.

(** The frames handed to a new goroutine running [handlePacket]. *)
Definition spawned (tr : list Action) : list (list byte) :=
  omap (fun a => match a with AGo p => Some p | _ => None end) tr.

(** The sockets [device.NewSocket] was asked to open. *)
Definition opens (tr : list Action) : list Z :=
  omap (fun a => match a with ANewSocket n => Some n | _ => None end) tr.

(** The registrations made in the Event Subsystem, oldest first. *)
Definition registrations (tr : list Action) : list (Z * Handler) :=
  omap (fun a => match a with
                 | AHandleEvent _ c f => Some (c, f)
                 | _ => None
                 end) tr.


(** The tags the enumeration defines. *)
Definition defined_tags : list PacketType :=
  [ptypeCommandPkt; ptypeACLDataPkt; ptypeSCODataPkt; ptypeEventPkt;
   ptypeVendorPkt].

(** Every step of [seq], sent in order from [w], reports success: the
    world after the last one. *)
Fixpoint sends_ok `{Collaborators} (c : option CmdRef) (seq : list cmdSeq)
  (w : W) : option W :=
  match seq with
  | [] => Some w
  | s :: seq' =>
      match cmd_SendAndCheckResp c (cp s) (exp s) w with
      | (w', Ret None) => sends_ok c seq' w'
      | _ => None
      end
  end.

(** The table the five registrations of [NewHCI] build, in the order of
    the source, for the command object [c] and the L2CAP object [r]. *)
Definition five_bindings `{Collaborators} (c : CmdRef) (r : L2CRef)
  : gmap Z Handler :=
  <[CommandStatus := HandleStatus c]>
    (<[CommandComplete := HandleComplete c]>
       (<[NumberOfCompletedPkts := HandleNumberOfCompletedPkts r]>
          (<[DisconnectionComplete := HandleDisconnectionComplete r]>
             (<[LEMeta := HandleLEMeta r]> ∅)))).

(** The five event codes, in the order [NewHCI] registers them. *)
Definition five_codes `{Collaborators} : list Z :=
  [LEMeta; DisconnectionComplete; NumberOfCompletedPkts; CommandComplete;
   CommandStatus].

(** What [NewHCI] leaves behind once the socket [d] is open, the world
    being [w], the heap [hp] and the trace [tr] at that point: the state,
    and the instance it returns. *)
Definition wired `{Collaborators} (l : option Logger) (maxConn : Z)
  (d : DevRef) (w : W) (hp : gmap loc event_Event) (tr : list Action)
  : State * HCI :=
  let '(wc, c) := cmd_NewCmd d l w in
  let '(wl, r) := l2cap_NewL2CAP c d l maxConn wc in
  let e := fresh (dom hp) in
  (mkState wl (<[e := mkEvent (five_bindings c r)]> hp)
     (tr ++ [ANewCmd d l; ANewL2CAP c d l maxConn; ANewEvent l;
             AHandleEvent e LEMeta (HandleLEMeta r);
             AHandleEvent e DisconnectionComplete
               (HandleDisconnectionComplete r);
             AHandleEvent e NumberOfCompletedPkts
               (HandleNumberOfCompletedPkts r);
             AHandleEvent e CommandComplete (HandleComplete c);
             AHandleEvent e CommandStatus (HandleStatus c)]),
   mkHCI (Some d) None (Some c) (Some e) (Some r)).

(** A computation that leaves the heap of [event.Event] objects as it
    found it. *)
Definition keeps_heap `{Collaborators} {A} (m : M State A) : Prop :=
  forall s, heap (m s).1 = heap s.

(** ** A scripted controller and scripted subsystems

    A world in which the sockets that open, the results of the reads and
    the command that fails are given in advance. *)
Module Fake.

Record scripted : Type := mkWorld {
  sockets : list Z;
  script : list (list byte * Z * option error);
  sent : nat;
  fail_at : option nat
}.

Definition NewSocket (id : Z) (w : scripted) : scripted * (DevRef + error) :=
  (w, if bool_decide (id ∈ sockets w) then inl (Z.to_nat id)
      else inr "no such device"%string).

Definition Read (d : DevRef) (b : list byte) (w : scripted)
  : scripted * outcome (list byte * Z * option error) :=
  match script w with
  | [] => (w, Ret (b, 0%Z, Some "EOF"%string))
  | (data, n, err) :: rest =>
      (mkWorld (sockets w) rest (sent w) (fail_at w),
       Ret (copy b data, n, err))
  end.

Definition SendAndCheckResp (c : option CmdRef) (p : CmdParam)
  (e : list byte) (w : scripted) : scripted * outcome (option error) :=
  let k := S (sent w) in
  (mkWorld (sockets w) (script w) k (fail_at w),
   Ret (if bool_decide (fail_at w = Some k)
        then Some "unexpected response"%string else None)).

Definition Dispatch (e : option event_Event) (b : list byte) (w : scripted)
  : scripted * outcome (option error) :=
  (w, Ret (match e, b with
           | Some ev, c :: _ =>
               match evtHandlers ev !! byte_to_Z c with
               | Some _ => None
               | None => Some "unhandled event"%string
               end
           | _, _ => Some "unhandled event"%string
           end)).

#[global] Instance collaborators : Collaborators := {|
  W := scripted;
  LEMeta := 0x3E;
  DisconnectionComplete := 0x05;
  NumberOfCompletedPkts := 0x13;
  CommandComplete := 0x0E;
  CommandStatus := 0x0F;
  device_NewSocket := NewSocket;
  cmd_NewCmd := fun _ _ w => (w, 20%nat);
  l2cap_NewL2CAP := fun _ _ _ _ w => (w, 30%nat);
  dev_Read := Read;
  l2c_HandleL2CAP := fun _ _ w => (w, Ret None);
  evt_Dispatch := Dispatch;
  cmd_SendAndCheckResp := SendAndCheckResp
|}.

(** An instance as [NewHCI] builds it, and a state to run it in. *)
Definition h0 : HCI := mkHCI (Some 0%nat) None (Some 20%nat) (Some 0%nat)
                             (Some 30%nat).

Definition w0 : scripted := mkWorld [0%Z] [] 0 None.

Definition s0 : State := mkState w0 ∅ [].

(** A world in which no socket opens, and one in which device 1 does. *)
Definition w_none : scripted := mkWorld [] [] 0 None.
Definition s_none : State := mkState w_none ∅ [].
Definition w_one : scripted := mkWorld [1%Z] [] 0 None.
Definition s_one : State := mkState w_one ∅ [].

End Fake.

(** ** The read loop and the bring-up as a whole *)



(** The actions of the read loop itself: a read, a goroutine, a log
    line. *)
Definition loop_action (a : Action) : bool :=
  match a with
  | ARead _ | AGo _ | ALog _ => true
  | _ => false
  end.

(** The actions [handlePacket] can add: a handler call, a log line. *)
Definition packet_action (a : Action) : bool :=
  match a with
  | ACall _ _ | ALog _ => true
  | _ => false
  end.

(** The log lines of a trace, oldest first. *)
Definition logged (tr : list Action) : list LogEntry :=
  omap (fun a => match a with ALog l => Some l | _ => None end) tr.

(** The little-endian bytes of a 16-bit opcode, low byte first. *)
Definition opcode_bytes (op : Z) : byte * byte :=
  (default x00 (Byte.of_N (Z.to_N (op mod 256))),
   default x00 (Byte.of_N (Z.to_N (op / 256)))).

(** ** Subsystems that crash

    The scripted world again, with a Command Subsystem that panics on the
    command [fail_at] instead of returning an error, and an L2CAP handler
    that rejects an empty payload and panics on a payload that starts with
    0xFF. *)
Module Crash.

Definition SendAndCheckResp (c : option CmdRef) (p : CmdParam)
  (e : list byte) (w : Fake.scripted)
  : Fake.scripted * outcome (option error) :=
  let k := S (Fake.sent w) in
  (Fake.mkWorld (Fake.sockets w) (Fake.script w) k (Fake.fail_at w),
   if bool_decide (Fake.fail_at w = Some k)
   then Panic (ForeignPanic "write on closed link")
   else Ret None).

Definition HandleL2CAP (r : option L2CRef) (b : list byte)
  (w : Fake.scripted) : Fake.scripted * outcome (option error) :=
  (w, match b with
      | [] => Ret (Some "short ACL frame"%string)
      | xff :: _ => Panic (ForeignPanic "bad ACL handle")
      | _ => Ret None
      end).

Definition collaborators : Collaborators := {|
  W := Fake.scripted;
  LEMeta := 0x3E;
  DisconnectionComplete := 0x05;
  NumberOfCompletedPkts := 0x13;
  CommandComplete := 0x0E;
  CommandStatus := 0x0F;
  device_NewSocket := Fake.NewSocket;
  cmd_NewCmd := fun _ _ w => (w, 20%nat);
  l2cap_NewL2CAP := fun _ _ _ _ w => (w, 30%nat);
  dev_Read := Fake.Read;
  l2c_HandleL2CAP := HandleL2CAP;
  evt_Dispatch := Fake.Dispatch;
  cmd_SendAndCheckResp := SendAndCheckResp
|}.

(** The command subsystem panics on the second command. *)
Definition s_crash : @State collaborators :=
  @mkState collaborators (Fake.mkWorld [] [] 0 (Some 2%nat)) ∅ [].

Definition s_idle : @State collaborators :=
  @mkState collaborators Fake.w_none ∅ [].

End Crash.

(** Unfolds one layer of the monad in the goal. *)
Ltac go_unfold :=
  unfold handlePacket, handleCmd, handleSCO, handleVendor, log_Fatalf,
    log_Printf, deref, index, slice_from, bind, emit, foreign, ret, raise,
    os_Exit; simpl; rewrite ?drop_0.

(** ** Facts about bytes, opcodes and traces *)

Lemma byte_to_Z_range (b : byte) : (0 <= byte_to_Z b < 256)%Z.
Proof.
  unfold byte_to_Z. pose proof (Byte.to_N_bounded b). lia.
Qed.

Lemma land_low_shifted (a b : Z) :
  (0 <= a < 256)%Z -> Z.land a (Z.shiftl b 8) = 0%Z.
Proof.
  intros Ha. apply Z.bits_inj'. intros n Hn.
  rewrite Z.land_spec, Z.bits_0.
  destruct (Z.lt_ge_cases n 8) as [Hlt | Hge].
  - rewrite (Z.shiftl_spec_low b 8 n Hlt). apply andb_false_r.
  - replace a with (a mod 2 ^ 8)%Z by (apply Z.mod_small; lia).
    rewrite Z.mod_pow2_bits_high by lia. reflexivity.
Qed.

Lemma lor_low_shifted (a b : Z) :
  (0 <= a < 256)%Z -> Z.lor a (Z.shiftl b 8) = (a + 256 * b)%Z.
Proof.
  intros Ha. pose proof (land_low_shifted a b Ha) as Hd.
  rewrite <- (Z.lxor_lor _ _ Hd), <- (Z.add_nocarry_lxor _ _ Hd).
  rewrite Z.shiftl_mul_pow2 by lia. lia.
Qed.

(** The expression of [handleCmd] never wraps: it is the opcode whose low
    byte is [b0] and whose high byte is [b1]. *)
Lemma opcode_little_endian (b0 b1 : byte) :
  Z.lor (uint16 (byte_to_Z b0))
        (uint16 (Z.shiftl (uint16 (byte_to_Z b1)) 8))
  = (byte_to_Z b0 + 256 * byte_to_Z b1)%Z.
Proof.
  pose proof (byte_to_Z_range b0) as H0.
  pose proof (byte_to_Z_range b1) as H1.
  unfold uint16.
  rewrite (Z.mod_small (byte_to_Z b0)) by lia.
  rewrite (Z.mod_small (byte_to_Z b1)) by lia.
  rewrite (Z.mod_small (Z.shiftl _ 8))
    by (rewrite Z.shiftl_mul_pow2 by lia; lia).
  apply lor_low_shifted, H0.
Qed.

Lemma invocations_snoc (tr : list Action) (a : Action) :
  invocations (tr ++ [a]) = invocations tr ++ invocations [a].
Proof. apply omap_app. Qed.

Lemma sends_app (tr tr' : list Action) :
  sends (tr ++ tr') = sends tr ++ sends tr'.
Proof. apply omap_app. Qed.

Lemma sends_ASend (c : option CmdRef) (seq : list cmdSeq) :
  sends (map (ASend c) seq) = seq.
Proof. induction seq as [| s seq IH]; simpl; [| rewrite IH]; reflexivity. Qed.

Section Properties.

Context `{Col : Collaborators}.
Local Open Scope go_scope.

(** *** The command-echo observer *)

(** With two bytes or more, [handleCmd] logs the opcode and returns nil;
    it touches neither the world nor the heap. *)
Lemma handleCmd_two_bytes (h : HCI) (b0 b1 : byte) (rest : list byte)
  (s : State) :
  handleCmd h (b0 :: b1 :: rest) s =
    (mkState (world s) (heap s)
       (trace s ++
        [ALog (LogUnmanagedCmd (byte_to_Z b0 + 256 * byte_to_Z b1))]),
     Ret None).
Proof.
  go_unfold. rewrite opcode_little_endian. reflexivity.
Qed.

(** With fewer than two bytes, the index expression panics. *)
Lemma handleCmd_short (h : HCI) (b : list byte) (s : State) :
  (length b < 2)%nat ->
  handleCmd h b s = (s, Panic (IndexOutOfRange (length b) (length b))).
Proof.
  intros Hlen. destruct b as [| b0 [| b1 rest]]; simpl in Hlen; try lia;
    reflexivity.
Qed.

(** C9: [handleCmd] is not total.  It indexes bytes 0 and 1 of the
    payload without a check: it returns (nil) exactly when the payload
    has two bytes or more, and panics with an index out of range on any
    shorter payload; through [handlePacket], a Command-tagged frame of
    fewer than three bytes ends in that panic. *)
Theorem handleCmd_returns_iff_two_bytes (h : HCI) (b : list byte)
  (s : State) :
  match handleCmd h b s with
  | (_, Ret r) => (2 <= length b)%nat /\ r = None
  | (s', Panic p) =>
      (length b < 2)%nat /\ s' = s /\
      p = IndexOutOfRange (length b) (length b)
  | (_, Exit _) => False
  end
  /\ match handlePacket h (ptypeCommandPkt :: b) s with
     | (_, Ret _) => (3 <= length (ptypeCommandPkt :: b))%nat
     | (_, Panic p) =>
         (length (ptypeCommandPkt :: b) < 3)%nat /\
         p = IndexOutOfRange (length b) (length b)
     | (_, Exit _) => False
     end.
Proof.
  destruct b as [| b0 [| b1 rest]].
  - split; simpl; repeat split; lia.
  - split; simpl; repeat split; lia.
  - split.
    + rewrite handleCmd_two_bytes. simpl. split; [lia | reflexivity].
    + go_unfold. lia.
Qed.

(** C7 (amended): on every Command-tagged frame whose payload has two
    bytes or more, the observer decodes the opcode low byte first
    (payload[0] | payload[1] << 8), logs it and returns nil, and nothing
    but the call and the log entry happens: the world of the
    collaborators is untouched.  On a payload of any length it never
    returns a non-nil error, never exits and never changes the world. *)
Theorem handleCmd_observes (h : HCI) (b0 b1 : byte) (rest : list byte)
  (s : State) :
  let op := Z.lor (byte_to_Z b0) (Z.shiftl (byte_to_Z b1) 8) in
  handleCmd h (b0 :: b1 :: rest) s =
    (mkState (world s) (heap s) (trace s ++ [ALog (LogUnmanagedCmd op)]),
     Ret None)
  /\ handlePacket h (ptypeCommandPkt :: b0 :: b1 :: rest) s =
    (mkState (world s) (heap s)
       (trace s ++ [ACall H_handleCmd (b0 :: b1 :: rest);
                    ALog (LogUnmanagedCmd op)]),
     Ret tt)
  /\ Z.land op 255 = byte_to_Z b0
  /\ Z.shiftr op 8 = byte_to_Z b1
  /\ (0 <= op < 65536)%Z
  /\ forall b : list byte,
      world (handleCmd h b s).1 = world s /\
      heap (handleCmd h b s).1 = heap s /\
      (forall e, (handleCmd h b s).2 <> Ret (Some e)) /\
      (forall c, (handleCmd h b s).2 <> Exit c).
Proof.
  intros op.
  pose proof (byte_to_Z_range b0) as R0.
  pose proof (byte_to_Z_range b1) as R1.
  assert (Hop : op = (byte_to_Z b0 + 256 * byte_to_Z b1)%Z)
    by (apply lor_low_shifted, R0).
  split; [| split; [| split; [| split; [| split]]]].
  - rewrite handleCmd_two_bytes, Hop. reflexivity.
  - go_unfold. rewrite opcode_little_endian, Hop, <- app_assoc.
    reflexivity.
  - rewrite Hop. change 255%Z with (Z.ones 8).
    rewrite Z.land_ones by lia. change (2 ^ 8)%Z with 256%Z.
    Z.div_mod_to_equations. lia.
  - rewrite Hop, Z.shiftr_div_pow2 by lia. change (2 ^ 8)%Z with 256%Z.
    Z.div_mod_to_equations. lia.
  - lia.
  - intros b. destruct b as [| c0 [| c1 tl]];
      [ repeat split; intros; discriminate ..|].
    rewrite handleCmd_two_bytes. repeat split; intros; discriminate.
Qed.

(** *** The demultiplexer *)


(** C4: on every frame whose tag is outside the defined set,
    [handlePacket] reaches the default branch: it logs the unknown type
    and the process exits with status 1.  It does not return, and it
    calls no handler and no collaborator. *)
Theorem handlePacket_unknown_tag_exits (h : HCI) (t : PacketType)
  (payload : list byte) (s : State) :
  t ∉ defined_tags ->
  handlePacket h (t :: payload) s =
    (mkState (world s) (heap s)
       (trace s ++ [ALog (LogUnknownEvent t payload)]), Exit 1)
  /\ invocations (trace (handlePacket h (t :: payload) s).1) =
     invocations (trace s).
Proof.
  intros Ht.
  assert (Hrun : handlePacket h (t :: payload) s =
    (mkState (world s) (heap s)
       (trace s ++ [ALog (LogUnknownEvent t payload)]), Exit 1)).
  { destruct t; try reflexivity; exfalso; apply Ht;
      unfold defined_tags, ptypeCommandPkt, ptypeACLDataPkt,
        ptypeSCODataPkt, ptypeEventPkt, ptypeVendorPkt;
      repeat (first [apply list_elem_of_here | apply list_elem_of_further]). }
  split; [exact Hrun |].
  rewrite Hrun. simpl. rewrite invocations_snoc. apply app_nil_r.
Qed.

(** C5: an SCO-tagged and a Vendor-tagged frame each give the error
    "... not supported".  [handlePacket] logs the error with the payload
    and returns: nothing is passed on to its caller.  Neither
    evt.Dispatch nor an operation of the L2CAP handler is called, and
    the world of the collaborators is as it was. *)
Theorem handlePacket_unsupported (h : HCI) (payload : list byte)
  (s : State) :
  handleSCO h payload s = (s, Ret (Some "SCO packet not supported"%string))
  /\ handleVendor h payload s =
     (s, Ret (Some "Vendor packet not supported"%string))
  /\ handlePacket h (ptypeSCODataPkt :: payload) s =
    (mkState (world s) (heap s)
       (trace s ++ [ACall H_handleSCO payload;
                    ALog (LogHci "SCO packet not supported" payload)]),
     Ret tt)
  /\ handlePacket h (ptypeVendorPkt :: payload) s =
    (mkState (world s) (heap s)
       (trace s ++ [ACall H_handleVendor payload;
                    ALog (LogHci "Vendor packet not supported" payload)]),
     Ret tt).
Proof.
  repeat split; go_unfold; rewrite <- app_assoc; reflexivity.
Qed.

(** *** The read loop *)


(** C6: in every iteration of the read loop, whatever the state, the
    buffer and the number of iterations that could still follow, a read
    that returns an error or zero bytes ends the loop: [mainLoop] logs
    the condition and returns.  After that read no other read is issued,
    no goroutine is started for it and no socket is opened again. *)
Theorem loop_ends_on_error_or_zero (fuel : nat) (h : HCI)
  (b b' : list byte) (s : State) (d : DevRef) (w' : W) (n : Z)
  (err : option error) :
  dev h = Some d ->
  dev_Read d b (world s) = (w', Ret (b', n, err)) ->
  err <> None \/ n = 0%Z ->
  let r := loop (S fuel) h b s in
  r = (mkState w' (heap s)
         (trace s ++
          [ARead (length b);
           ALog (match err with
                 | Some e => LogFailedToRead e
                 | None => LogReadZero
                 end)]),
       Ret Returned)
  /\ reads (trace r.1) = reads (trace s) ++ [length b]
  /\ spawned (trace r.1) = spawned (trace s)
  /\ invocations (trace r.1) = invocations (trace s)
  /\ opens (trace r.1) = opens (trace s).
Proof.
  intros Hd Hr Hbad r.
  assert (Hrun : r = (mkState w' (heap s)
         (trace s ++
          [ARead (length b);
           ALog (match err with
                 | Some e => LogFailedToRead e
                 | None => LogReadZero
                 end)]),
       Ret Returned)).
  { subst r. simpl. unfold bind, emit, foreign, log_Printf. simpl.
    rewrite Hd. simpl. rewrite Hr. simpl.
    destruct err as [e |]; simpl.
    - rewrite <- app_assoc. reflexivity.
    - destruct Hbad as [Hbad | ->]; [congruence |]. simpl.
      rewrite <- app_assoc. reflexivity. }
  split; [exact Hrun |]. rewrite Hrun. simpl.
  unfold reads, spawned, invocations, opens. rewrite !omap_app. simpl.
  rewrite !app_nil_r. repeat split; reflexivity.
Qed.

Lemma length_copy (dst src : list byte) :
  length (copy dst src) = length dst.
Proof.
  unfold copy. rewrite length_app, length_take, length_drop. lia.
Qed.

Lemma spawned_snoc (tr : list Action) (a : Action) :
  spawned (tr ++ [a]) = spawned tr ++ spawned [a].
Proof. apply omap_app. Qed.

(** A frame handed to [handlePacket] by the read loop is never empty:
    [b[0]] is in range for it. *)
Lemma loop_spawns_nonempty (fuel : nat) (h : HCI) (b : list byte)
  (s : State) :
  Forall (fun p => p <> []) (spawned (trace s)) ->
  Forall (fun p => p <> []) (spawned (trace (loop fuel h b s).1)).
Proof.
  revert b s. induction fuel as [| fuel IH]; intros b s Hs; [exact Hs |].
  simpl. unfold bind, emit, foreign, make, log_Printf, raise, ret. simpl.
  assert (Hread : Forall (fun p => p <> [])
                    (spawned (trace s ++ [ARead (length b)])))
    by (rewrite spawned_snoc, app_nil_r; exact Hs).
  destruct (dev h) as [d |]; simpl; [| exact Hread].
  destruct (dev_Read d b (world s)) as [w [[[b' n] err] | p | c]]; simpl;
    try exact Hread.
  destruct err as [e |]; simpl.
  { rewrite spawned_snoc, app_nil_r. exact Hread. }
  destruct (Z.eqb_spec n 0) as [-> | Hn]; simpl.
  { rewrite spawned_snoc, app_nil_r. exact Hread. }
  destruct (Z.ltb_spec n 0) as [Hneg | Hpos]; simpl; [exact Hread |].
  apply IH. simpl. rewrite spawned_snoc. apply Forall_app. split.
  - exact Hread.
  - simpl. apply Forall_singleton. intros Hnil.
    apply (f_equal length) in Hnil.
    rewrite length_copy, length_replicate in Hnil. simpl in Hnil. lia.
Qed.

(** Once [mainLoop] has returned, allowing more iterations changes
    nothing: the loop does not start again. *)
Lemma loop_returned_stable (fuel : nat) (h : HCI) (b : list byte)
  (s s' : State) :
  loop fuel h b s = (s', Ret Returned) ->
  forall k : nat, loop (fuel + k) h b s = (s', Ret Returned).
Proof.
  revert b s. induction fuel as [| fuel IH]; intros b s Hrun k.
  - discriminate Hrun.
  - simpl in *. unfold bind, emit, foreign, make, log_Printf, raise, ret in *.
    simpl in *.
    destruct (dev h) as [d |]; simpl in *; [| exact Hrun].
    destruct (dev_Read d b (world s)) as [w [[[b' n] err] | p | c]];
      simpl in *; try exact Hrun.
    destruct err as [e |]; simpl in *; [exact Hrun |].
    destruct (n =? 0)%Z; simpl in *; [exact Hrun |].
    destruct (n <? 0)%Z; simpl in *; [exact Hrun |].
    apply IH, Hrun.
Qed.

(** *** Bring-up *)

Lemma sends_ok_app (c : option CmdRef) (a b : list cmdSeq) (w : W) :
  sends_ok c (a ++ b) w = sends_ok c a w ≫= sends_ok c b.
Proof.
  revert w. induction a as [| st a IH]; intros w; simpl; [reflexivity |].
  destruct (cmd_SendAndCheckResp c (cp st) (exp st) w)
    as [w1 [[e |] | p | x]]; simpl; auto.
Qed.

Lemma forRange_app (h : HCI) (a b : list cmdSeq) (s : State) :
  forRange h (a ++ b) s =
    (err <- forRange h a ;;
     match err with
     | Some e => ret (Some e)
     | None => forRange h b
     end) s.
Proof.
  revert s. induction a as [| st a IH]; intros s.
  - reflexivity.
  - cbn [forRange app]. unfold bind, emit, foreign, Cmd.
    cbn [world heap trace].
    destruct (cmd_SendAndCheckResp (cmd h) (cp st) (exp st) (world s))
      as [w1 [[e |] | p | x]]; try reflexivity.
    rewrite IH. reflexivity.
Qed.

(** The two loops of [ResetDevice] are one pass over the baseline list
    followed by the vendor list. *)
Lemma ResetDevice_forRange (h : HCI) (s : State) :
  ResetDevice h s = forRange h (defaultResetSeq ++ bcmResetSeq) s.
Proof.
  rewrite forRange_app. unfold ResetDevice, bind.
  destruct (forRange h defaultResetSeq s) as [s1 [[e |] | p | x]];
    try reflexivity.
  destruct (forRange h bcmResetSeq s1) as [s2 [[e |] | p | x]];
    reflexivity.
Qed.

Lemma forRange_all_ok (h : HCI) (seq : list cmdSeq) (s : State) (w' : W) :
  sends_ok (cmd h) seq (world s) = Some w' ->
  forRange h seq s =
    (mkState w' (heap s) (trace s ++ map (ASend (cmd h)) seq), Ret None).
Proof.
  revert s. induction seq as [| st seq IH]; intros s Hok; simpl in *.
  - injection Hok as <-. rewrite app_nil_r. destruct s; reflexivity.
  - unfold bind, emit, foreign, Cmd. simpl.
    destruct (cmd_SendAndCheckResp (cmd h) (cp st) (exp st) (world s))
      as [w1 [[e |] | p | x]]; try discriminate Hok.
    rewrite (IH (mkState w1 (heap s) (trace s ++ [ASend (cmd h) st])) Hok).
    simpl. rewrite <- app_assoc. reflexivity.
Qed.

Lemma forRange_first_failure (h : HCI) (pre post : list cmdSeq)
  (st : cmdSeq) (s : State) (w1 w2 : W) (e : error) :
  sends_ok (cmd h) pre (world s) = Some w1 ->
  cmd_SendAndCheckResp (cmd h) (cp st) (exp st) w1 = (w2, Ret (Some e)) ->
  forRange h (pre ++ st :: post) s =
    (mkState w2 (heap s) (trace s ++ map (ASend (cmd h)) (pre ++ [st])),
     Ret (Some e)).
Proof.
  intros Hpre Hst. rewrite forRange_app. unfold bind.
  rewrite (forRange_all_ok h pre s w1 Hpre). simpl.
  unfold bind, emit, foreign, Cmd. simpl. rewrite Hst. simpl.
  rewrite map_app, <- app_assoc. reflexivity.
Qed.

(** What a pass has sent is a prefix of its list, and every step sent
    before the last one had succeeded. *)
Lemma forRange_prefix (h : HCI) (seq : list cmdSeq) (s : State) :
  exists k : nat,
    (k <= length seq)%nat /\
    trace (forRange h seq s).1 =
      trace s ++ map (ASend (cmd h)) (take k seq) /\
    is_Some (sends_ok (cmd h) (take (pred k) seq) (world s)).
Proof.
  revert s. induction seq as [| st seq IH]; intros s.
  - exists 0%nat. simpl. rewrite app_nil_r. eauto.
  - simpl. unfold bind, emit, foreign, Cmd. simpl.
    destruct (cmd_SendAndCheckResp (cmd h) (cp st) (exp st) (world s))
      as [w1 [[e |] | p | x]] eqn:Hst; simpl.
    2: { destruct (IH (mkState w1 (heap s) (trace s ++ [ASend (cmd h) st])))
           as (k & Hk & Htr & Hok).
         exists (S k). split; [lia |]. split.
         - rewrite Htr. simpl. rewrite <- app_assoc. reflexivity.
         - destruct k as [| j]; simpl in *; [eauto |].
           rewrite Hst. exact Hok. }
    all: exists 1%nat; simpl; rewrite ?take_0; simpl;
      split; [lia | split; [reflexivity | eauto]].
Qed.

(** C2: when a step of the baseline list followed by the vendor list is
    the first one for which SendAndCheckResp returns an error (the steps
    [pre] before it all succeed), [ResetDevice] returns that error, and
    the commands it has sent are [pre] and that step: as many calls as
    the position of the step, counted from one.  No step of [post], in
    either list, is sent. *)
Theorem ResetDevice_first_failure (h : HCI) (pre post : list cmdSeq)
  (st : cmdSeq) (s : State) (w1 w2 : W) (e : error) :
  defaultResetSeq ++ bcmResetSeq = pre ++ st :: post ->
  sends_ok (cmd h) pre (world s) = Some w1 ->
  cmd_SendAndCheckResp (cmd h) (cp st) (exp st) w1 = (w2, Ret (Some e)) ->
  ResetDevice h s =
    (mkState w2 (heap s) (trace s ++ map (ASend (cmd h)) (pre ++ [st])),
     Ret (Some e))
  /\ sends (trace (ResetDevice h s).1) = sends (trace s) ++ pre ++ [st]
  /\ length (sends (trace (ResetDevice h s).1)) =
     (length (sends (trace s)) + S (length pre))%nat.
Proof.
  intros Hsplit Hpre Hst.
  assert (Hrun : ResetDevice h s =
    (mkState w2 (heap s) (trace s ++ map (ASend (cmd h)) (pre ++ [st])),
     Ret (Some e))).
  { rewrite ResetDevice_forRange, Hsplit.
    apply (forRange_first_failure h pre post st s w1 w2 e Hpre Hst). }
  rewrite Hrun. simpl. rewrite sends_app, sends_ASend.
  repeat split. rewrite !length_app. simpl. lia.
Qed.

(** C3: [ResetDevice] sends the steps of the baseline list and then
    those of the vendor list, in list order and one after the other:
    what it has sent is always a prefix of the baseline list followed by
    the vendor list, and a step of the vendor list is sent only when
    every baseline step has succeeded.  When every step of both lists
    succeeds, it returns nil having sent each step once, in that
    order. *)
Theorem ResetDevice_in_order (h : HCI) (s : State) :
  (forall w' : W,
     sends_ok (cmd h) (defaultResetSeq ++ bcmResetSeq) (world s) = Some w' ->
     ResetDevice h s =
       (mkState w' (heap s)
          (trace s ++
           map (ASend (cmd h)) (defaultResetSeq ++ bcmResetSeq)),
        Ret None))
  /\ exists k : nat,
      trace (ResetDevice h s).1 =
        trace s ++
        map (ASend (cmd h)) (take k (defaultResetSeq ++ bcmResetSeq)) /\
      ((length defaultResetSeq < k)%nat ->
       is_Some (sends_ok (cmd h) defaultResetSeq (world s))).
Proof.
  split.
  - intros w' Hok. rewrite ResetDevice_forRange.
    apply forRange_all_ok, Hok.
  - rewrite ResetDevice_forRange.
    destruct (forRange_prefix h (defaultResetSeq ++ bcmResetSeq) s)
      as (k & Hk & Htr & Hok).
    exists k. split; [exact Htr |]. intros Hlt.
    rewrite take_app_ge in Hok by lia.
    rewrite sends_ok_app in Hok.
    destruct (sends_ok (cmd h) defaultResetSeq (world s)); [eauto |].
    destruct Hok as [? Hok]. discriminate Hok.
Qed.

(** *** Construction *)

(** [NewHCI], run: the two attempts to open a socket, then the wiring. *)
Lemma NewHCI_run (l : option Logger) (maxConn : Z) (s : State) :
  NewHCI l maxConn s =
    let '(w1, r1) := device_NewSocket 1 (world s) in
    match r1 with
    | inl d =>
        let '(s', h) :=
          wired l maxConn d w1 (heap s) (trace s ++ [ANewSocket 1%Z]) in
        (s', Ret (Some h))
    | inr _ =>
        let '(w0, r0) := device_NewSocket 0 w1 in
        match r0 with
        | inl d =>
            let '(s', h) :=
              wired l maxConn d w0 (heap s)
                (trace s ++ [ANewSocket 1%Z; ANewSocket 0%Z]) in
            (s', Ret (Some h))
        | inr _ =>
            (mkState w0 (heap s)
               (trace s ++ [ANewSocket 1%Z; ANewSocket 0%Z]), Ret None)
        end
    end.
Proof.
  unfold NewHCI, NewSocket, event_NewEvent, HandleEvent, wired,
    five_bindings, bind, emit, construct, ret. simpl.
  destruct (device_NewSocket 1 (world s)) as [w1 [d | e1]]; simpl.
  - destruct (cmd_NewCmd d l w1) as [wc c]. simpl.
    destruct (l2cap_NewL2CAP c d l maxConn wc) as [wl r]. simpl.
    repeat (rewrite lookup_insert_eq; simpl).
    rewrite !insert_insert_eq, <- !app_assoc. reflexivity.
  - destruct (device_NewSocket 0 w1) as [w0 [d | e0]]; simpl.
    + destruct (cmd_NewCmd d l w0) as [wc c]. simpl.
      destruct (l2cap_NewL2CAP c d l maxConn wc) as [wl r]. simpl.
      repeat (rewrite lookup_insert_eq; simpl).
      rewrite !insert_insert_eq, <- !app_assoc. reflexivity.
    + rewrite <- app_assoc. reflexivity.
Qed.

(** The heap of [event.Event] objects is written by [event.NewEvent]
    and [HandleEvent] only. *)
Lemma keeps_heap_ret {A} (a : A) : keeps_heap (ret a).
Proof. intros s. reflexivity. Qed.

Lemma keeps_heap_raise {A} (p : panic) : keeps_heap (@raise State A p).
Proof. intros s. reflexivity. Qed.

Lemma keeps_heap_Exit {A} (c : Z) : keeps_heap (@os_Exit State A c).
Proof. intros s. reflexivity. Qed.

Lemma keeps_heap_emit (a : Action) : keeps_heap (emit a).
Proof. intros s. reflexivity. Qed.

Lemma keeps_heap_foreign {A} (f : W -> W * outcome A) :
  keeps_heap (foreign f).
Proof. intros s. unfold foreign. destruct (f (world s)). reflexivity. Qed.

Lemma keeps_heap_deref (e : option loc) : keeps_heap (deref e).
Proof. intros s. reflexivity. Qed.

Lemma keeps_heap_Fatalf {A} (l : LogEntry) : keeps_heap (@log_Fatalf _ A l).
Proof. intros s. reflexivity. Qed.

Lemma keeps_heap_bind {A B} (m : M State A) (k : A -> M State B) :
  keeps_heap m -> (forall a, keeps_heap (k a)) -> keeps_heap (bind m k).
Proof.
  intros Hm Hk s. unfold bind. specialize (Hm s).
  destruct (m s) as [s1 [a | p | c]]; simpl in *; try exact Hm.
  rewrite (Hk a s1). exact Hm.
Qed.

Lemma keeps_heap_index (b : list byte) (i : nat) :
  keeps_heap (@index State b i).
Proof. intros s. unfold index. destruct (b !! i); reflexivity. Qed.

Lemma keeps_heap_slice_from (b : list byte) (i : nat) :
  keeps_heap (@slice_from State b i).
Proof.
  intros s. unfold slice_from. destruct (i <=? length b)%nat; reflexivity.
Qed.

Lemma keeps_heap_make (n : Z) : keeps_heap (@make State n).
Proof. intros s. unfold make. destruct (n <? 0)%Z; reflexivity. Qed.

Create HintDb heap discriminated.
Hint Resolve keeps_heap_ret keeps_heap_raise keeps_heap_Exit keeps_heap_emit
  keeps_heap_foreign keeps_heap_deref keeps_heap_Fatalf keeps_heap_bind
  keeps_heap_index keeps_heap_slice_from keeps_heap_make : heap.

Lemma keeps_heap_handlePacket (h : HCI) (b : list byte) :
  keeps_heap (handlePacket h b).
Proof.
  unfold handlePacket, handleCmd, handleSCO, handleVendor, log_Printf.
  apply keeps_heap_bind; [auto with heap |]. intros t.
  apply keeps_heap_bind; [auto with heap |]. intros b'.
  apply keeps_heap_bind.
  - repeat match goal with
           | |- context [Byte.eqb ?x ?y] => destruct (Byte.eqb x y)
           end;
      repeat (apply keeps_heap_bind; [| intros ?]); auto with heap.
  - intros [e |]; auto with heap.
Qed.

Lemma keeps_heap_loop (fuel : nat) (h : HCI) (b : list byte) :
  keeps_heap (loop fuel h b).
Proof.
  revert b. induction fuel as [| fuel IH]; intros b; simpl;
    [auto with heap |].
  unfold log_Printf.
  apply keeps_heap_bind; [auto with heap |]. intros _.
  apply keeps_heap_bind; [destruct (dev h); auto with heap |].
  intros [[b' n] [e |]]; [auto with heap |].
  destruct (n =? 0)%Z; [auto with heap |].
  apply keeps_heap_bind; [auto with heap |]. intros p.
  apply keeps_heap_bind; [auto with heap |]. intros _. apply IH.
Qed.

Lemma keeps_heap_forRange (h : HCI) (seq : list cmdSeq) :
  keeps_heap (forRange h seq).
Proof.
  induction seq as [| st seq IH]; simpl; [auto with heap |].
  apply keeps_heap_bind; [auto with heap |]. intros _.
  apply keeps_heap_bind; [auto with heap |].
  intros [e |]; auto with heap.
Qed.

Lemma keeps_heap_ResetDevice (h : HCI) : keeps_heap (ResetDevice h).
Proof.
  intros s. rewrite ResetDevice_forRange. apply keeps_heap_forRange.
Qed.

(** The five codes are the domain of the table, whatever their values. *)
Lemma dom_five_bindings (c : CmdRef) (r : L2CRef) :
  dom (five_bindings c r) = list_to_set five_codes.
Proof.
  unfold five_bindings, five_codes. rewrite !dom_insert_L, dom_empty_L.
  simpl. apply set_eq. intros x.
  rewrite !elem_of_union, !elem_of_singleton. tauto.
Qed.

(** When the five codes differ from one another, each is bound to the
    handler it was registered with. *)
Lemma lookup_five_bindings (c : CmdRef) (r : L2CRef) :
  NoDup five_codes ->
  size (five_bindings c r) = 5%nat /\
  five_bindings c r !! LEMeta = Some (HandleLEMeta r) /\
  five_bindings c r !! DisconnectionComplete =
    Some (HandleDisconnectionComplete r) /\
  five_bindings c r !! NumberOfCompletedPkts =
    Some (HandleNumberOfCompletedPkts r) /\
  five_bindings c r !! CommandComplete = Some (HandleComplete c) /\
  five_bindings c r !! CommandStatus = Some (HandleStatus c).
Proof.
  intros Hnd. split.
  - rewrite <- size_dom, dom_five_bindings, size_list_to_set by exact Hnd.
    reflexivity.
  - unfold five_codes in Hnd.
    rewrite !NoDup_cons, !not_elem_of_cons in Hnd. destruct_and!.
    unfold five_bindings. repeat split; simplify_map_eq; reflexivity.
Qed.

Lemma wired_spec (l : option Logger) (maxConn : Z) (d : DevRef) (w : W)
  (hp : gmap loc event_Event) (tr : list Action) :
  exists (e : loc) (c : CmdRef) (r : L2CRef) (w' : W),
    hp !! e = None /\
    (wired l maxConn d w hp tr).2 =
      mkHCI (Some d) None (Some c) (Some e) (Some r) /\
    heap (wired l maxConn d w hp tr).1 =
      <[e := mkEvent (five_bindings c r)]> hp /\
    world (wired l maxConn d w hp tr).1 = w' /\
    (l2cap_NewL2CAP c d l maxConn (cmd_NewCmd d l w).1).1 = w' /\
    (cmd_NewCmd d l w).2 = c /\
    (l2cap_NewL2CAP c d l maxConn (cmd_NewCmd d l w).1).2 = r /\
    registrations (trace (wired l maxConn d w hp tr).1) =
      registrations tr ++
      [(LEMeta, HandleLEMeta r);
       (DisconnectionComplete, HandleDisconnectionComplete r);
       (NumberOfCompletedPkts, HandleNumberOfCompletedPkts r);
       (CommandComplete, HandleComplete c);
       (CommandStatus, HandleStatus c)] /\
    opens (trace (wired l maxConn d w hp tr).1) = opens tr.
Proof.
  unfold wired.
  destruct (cmd_NewCmd d l w) as [wc c] eqn:Hc. simpl.
  destruct (l2cap_NewL2CAP c d l maxConn wc) as [wl r] eqn:Hr. simpl.
  exists (fresh (dom hp)), c, r, wl.
  split; [apply not_elem_of_dom, is_fresh |].
  unfold registrations, opens. rewrite !omap_app, Hr. simpl.
  rewrite app_nil_r. repeat split; reflexivity.
Qed.

(** C8: when the five event codes differ from one another, a [NewHCI]
    that returns an instance has made five registrations and no other,
    in an Event Subsystem that was new: LE Meta, Disconnection Complete
    and Number Of Completed Packets are bound to the callbacks of the
    L2CAP object of the instance, Command Complete and Command Status to
    those of its command object; the table holds these five codes, one
    handler for each.  A [NewHCI] that returns nil registers nothing.
    After construction the table stays as it is: [handlePacket],
    [mainLoop] and [ResetDevice] leave every table unchanged. *)
Theorem NewHCI_binds_five_codes (l : option Logger) (maxConn : Z)
  (s : State) :
  NoDup five_codes ->
  match NewHCI l maxConn s with
  | (s', Ret (Some h)) =>
      exists (e : loc) (c : CmdRef) (r : L2CRef),
        evt h = Some e /\ cmd h = Some c /\ l2c h = Some r /\
        heap s !! e = None /\
        heap s' = <[e := mkEvent (five_bindings c r)]> (heap s) /\
        registrations (trace s') =
          registrations (trace s) ++
          [(LEMeta, HandleLEMeta r);
           (DisconnectionComplete, HandleDisconnectionComplete r);
           (NumberOfCompletedPkts, HandleNumberOfCompletedPkts r);
           (CommandComplete, HandleComplete c);
           (CommandStatus, HandleStatus c)] /\
        dom (five_bindings c r) = list_to_set five_codes /\
        size (five_bindings c r) = 5%nat /\
        five_bindings c r !! LEMeta = Some (HandleLEMeta r) /\
        five_bindings c r !! DisconnectionComplete =
          Some (HandleDisconnectionComplete r) /\
        five_bindings c r !! NumberOfCompletedPkts =
          Some (HandleNumberOfCompletedPkts r) /\
        five_bindings c r !! CommandComplete = Some (HandleComplete c) /\
        five_bindings c r !! CommandStatus = Some (HandleStatus c)
  | (s', _) =>
      heap s' = heap s /\
      registrations (trace s') = registrations (trace s)
  end
  /\ (forall h b, keeps_heap (handlePacket h b))
  /\ (forall fuel h, keeps_heap (mainLoop fuel h))
  /\ (forall h, keeps_heap (ResetDevice h)).
Proof.
  intros Hnd. split; [| split; [| split]].
  - assert (Hwired : forall d w tr,
      registrations tr = registrations (trace s) ->
      let '(s', h) := wired l maxConn d w (heap s) tr in
      exists (e : loc) (c : CmdRef) (r : L2CRef),
        evt h = Some e /\ cmd h = Some c /\ l2c h = Some r /\
        heap s !! e = None /\
        heap s' = <[e := mkEvent (five_bindings c r)]> (heap s) /\
        registrations (trace s') =
          registrations (trace s) ++
          [(LEMeta, HandleLEMeta r);
           (DisconnectionComplete, HandleDisconnectionComplete r);
           (NumberOfCompletedPkts, HandleNumberOfCompletedPkts r);
           (CommandComplete, HandleComplete c);
           (CommandStatus, HandleStatus c)] /\
        dom (five_bindings c r) = list_to_set five_codes /\
        size (five_bindings c r) = 5%nat /\
        five_bindings c r !! LEMeta = Some (HandleLEMeta r) /\
        five_bindings c r !! DisconnectionComplete =
          Some (HandleDisconnectionComplete r) /\
        five_bindings c r !! NumberOfCompletedPkts =
          Some (HandleNumberOfCompletedPkts r) /\
        five_bindings c r !! CommandComplete = Some (HandleComplete c) /\
        five_bindings c r !! CommandStatus = Some (HandleStatus c)).
    { intros d w tr Htr.
      destruct (wired_spec l maxConn d w (heap s) tr)
        as (e & c & r & w' & Hfresh & Hh & Hheap & _ & _ & _ & _ & Hreg & _).
      destruct (wired l maxConn d w (heap s) tr) as [s' h].
      simpl in *. subst h. exists e, c, r. simpl.
      rewrite Hreg, Htr.
      pose proof (lookup_five_bindings c r Hnd) as (? & ? & ? & ? & ? & ?).
      pose proof (dom_five_bindings c r).
      repeat split; assumption || reflexivity. }
    rewrite NewHCI_run.
    destruct (device_NewSocket 1 (world s)) as [w1 [d | e1]].
    + specialize (Hwired d w1 (trace s ++ [ANewSocket 1%Z])).
      destruct (wired _ _ _ _ _ _) as [s' h]. apply Hwired.
      unfold registrations. rewrite omap_app. apply app_nil_r.
    + destruct (device_NewSocket 0 w1) as [w0 [d | e0]].
      * specialize (Hwired d w0
                      (trace s ++ [ANewSocket 1%Z; ANewSocket 0%Z])).
        destruct (wired _ _ _ _ _ _) as [s' h]. apply Hwired.
        unfold registrations. rewrite omap_app. apply app_nil_r.
      * simpl. split; [reflexivity |].
        unfold registrations. rewrite omap_app. apply app_nil_r.
  - apply keeps_heap_handlePacket.
  - intros fuel h. unfold mainLoop.
    apply keeps_heap_bind; [apply keeps_heap_make |].
    intros b. apply keeps_heap_loop.
  - apply keeps_heap_ResetDevice.
Qed.

(** C10: when device 1 does not open and device 0 does not open either,
    [NewHCI] returns nil, having tried device 1 and then device 0.  When
    device 1 opens, or when it does not and device 0 opens, [NewHCI]
    returns an instance whose dev, cmd, evt and l2c fields are set: to
    the socket that opened, to the command object and the L2CAP object
    built on it, and to a new Event Subsystem holding the five
    bindings. *)
Theorem NewHCI_nil_iff_no_socket (l : option Logger) (maxConn : Z)
  (s : State) :
  (forall w1 e1 w0 e0,
     device_NewSocket 1 (world s) = (w1, inr e1) ->
     device_NewSocket 0 w1 = (w0, inr e0) ->
     NewHCI l maxConn s =
       (mkState w0 (heap s) (trace s ++ [ANewSocket 1%Z; ANewSocket 0%Z]),
        Ret None))
  /\ (forall w1 d,
       device_NewSocket 1 (world s) = (w1, inl d) ->
       exists (s' : State) (c : CmdRef) (r : L2CRef) (e : loc),
         NewHCI l maxConn s =
           (s', Ret (Some (mkHCI (Some d) None (Some c) (Some e) (Some r))))
         /\ (cmd_NewCmd d l w1).2 = c
         /\ (l2cap_NewL2CAP c d l maxConn (cmd_NewCmd d l w1).1).2 = r
         /\ heap s' !! e = Some (mkEvent (five_bindings c r))
         /\ opens (trace s') = opens (trace s) ++ [1%Z])
  /\ (forall w1 e1 w0 d,
       device_NewSocket 1 (world s) = (w1, inr e1) ->
       device_NewSocket 0 w1 = (w0, inl d) ->
       exists (s' : State) (c : CmdRef) (r : L2CRef) (e : loc),
         NewHCI l maxConn s =
           (s', Ret (Some (mkHCI (Some d) None (Some c) (Some e) (Some r))))
         /\ (cmd_NewCmd d l w0).2 = c
         /\ (l2cap_NewL2CAP c d l maxConn (cmd_NewCmd d l w0).1).2 = r
         /\ heap s' !! e = Some (mkEvent (five_bindings c r))
         /\ opens (trace s') = opens (trace s) ++ [1%Z; 0%Z]).
Proof.
  assert (Hwired : forall d w tr,
    exists (s' : State) (c : CmdRef) (r : L2CRef) (e : loc),
      (let '(s1, h) := wired l maxConn d w (heap s) tr in
       (s1, Ret (Some h))) =
        (s', Ret (Some (mkHCI (Some d) None (Some c) (Some e) (Some r))))
      /\ (cmd_NewCmd d l w).2 = c
      /\ (l2cap_NewL2CAP c d l maxConn (cmd_NewCmd d l w).1).2 = r
      /\ heap s' !! e = Some (mkEvent (five_bindings c r))
      /\ opens (trace s') = opens tr).
  { intros d w tr.
    destruct (wired_spec l maxConn d w (heap s) tr)
      as (e & c & r & w' & _ & Hh & Hheap & _ & _ & Hc & Hr & _ & Hop).
    destruct (wired l maxConn d w (heap s) tr) as [s' h].
    simpl in *. subst h. exists s', c, r, e.
    rewrite Hheap, lookup_insert_eq. repeat split; assumption. }
  split; [| split].
  - intros w1 e1 w0 e0 H1 H0. rewrite NewHCI_run, H1, H0. reflexivity.
  - intros w1 d H1. rewrite NewHCI_run, H1.
    destruct (Hwired d w1 (trace s ++ [ANewSocket 1%Z]))
      as (s' & c & r & e & Hrun & Hc & Hr & Hheap & Hop).
    exists s', c, r, e. repeat split; try assumption.
    rewrite Hop. unfold opens. rewrite omap_app. reflexivity.
  - intros w1 e1 w0 d H1 H0. rewrite NewHCI_run, H1, H0.
    destruct (Hwired d w0 (trace s ++ [ANewSocket 1%Z; ANewSocket 0%Z]))
      as (s' & c & r & e & Hrun & Hc & Hr & Hheap & Hop).
    exists s', c, r, e. repeat split; try assumption.
    rewrite Hop. unfold opens. rewrite omap_app. reflexivity.
Qed.

End Properties.

(** ** The scripted collaborators at work *)



(** C4, at the tag 0x05. *)
Lemma handlePacket_unknown_tag_exits_witness :
  (x05 ∉ defined_tags) /\
  handlePacket Fake.h0 [x05; x00] Fake.s0 =
    (mkState Fake.w0 ∅ [ALog (LogUnknownEvent x05 [x00])], Exit 1).
Proof.
  assert (Hout : x05 ∉ defined_tags).
  { unfold defined_tags. rewrite !not_elem_of_cons.
    repeat split; try discriminate. apply not_elem_of_nil. }
  split; [exact Hout |].
  apply (proj1 (@handlePacket_unknown_tag_exits Fake.collaborators Fake.h0
                  x05 [x00] Fake.s0 Hout)).
Defined.

(** Counterexample to C7 as it is stated, on a Command-tagged frame with
    a one-byte payload: [handleCmd] is called, panics at [b[1]], logs
    nothing and returns nothing. *)
Lemma handleCmd_one_byte_panics :
  handlePacket Fake.h0 [x01; x03] Fake.s0 =
    (mkState Fake.w0 ∅ [ACall H_handleCmd [x03]],
     Panic (IndexOutOfRange 1 1))
  /\ handleCmd Fake.h0 [x03] Fake.s0 =
       (Fake.s0, Panic (IndexOutOfRange 1 1))
  /\ ~ exists s', handleCmd Fake.h0 [x03] Fake.s0 = (s', Ret None).
Proof.
  split; [reflexivity |]. split; [reflexivity |].
  intros (s' & Hs). discriminate Hs.
Qed.

(** C6, at a read of zero bytes with five iterations still allowed. *)
Lemma loop_ends_on_error_or_zero_witness :
  let s := mkState (Fake.mkWorld [] [([], 0%Z, None); ([x02], 1%Z, None)]
                      0 None) ∅ [] in
  loop 6 Fake.h0 [x00; x00] s =
    (mkState (Fake.mkWorld [] [([x02], 1%Z, None)] 0 None) ∅
       [ARead 2; ALog LogReadZero], Ret Returned).
Proof.
  intros s.
  apply (proj1 (@loop_ends_on_error_or_zero Fake.collaborators 5 Fake.h0
                  [x00; x00] [x00; x00] s 0%nat
                  (Fake.mkWorld [] [([x02], 1%Z, None)] 0 None) 0%Z None
                  eq_refl eq_refl (or_intror eq_refl))).
Defined.

(** A whole run of the read loop: two frames, then a read of zero bytes;
    the fourth result of the script is never asked for. *)
Example mainLoop_scripted_run :
  let r := mainLoop 10 Fake.h0
             (mkState (Fake.mkWorld []
                         [([x04; x0e], 2%Z, None); ([x02], 1%Z, None);
                          ([], 0%Z, None); ([x02], 1%Z, None)] 0 None)
                ∅ []) in
  r.2 = Ret Returned /\
  reads (trace r.1) = [4096; 4096; 4096]%nat /\
  spawned (trace r.1) = [[x04; x0e]; [x02]] /\
  Fake.script (world r.1) = [([x02], 1%Z, None)].
Proof. vm_compute. repeat split; reflexivity. Qed.

(** C2, at the scenario of the specification: the second step fails, and
    the Command Subsystem has been called twice. *)
Lemma ResetDevice_first_failure_witness :
  let s := mkState (Fake.mkWorld [] [] 0 (Some 2%nat)) ∅ [] in
  let pre := [mkCmdSeq Reset expSuccess] in
  let st := mkCmdSeq (SetEventMask 0x3dbff807fffbffff) expSuccess in
  ResetDevice Fake.h0 s =
    (mkState (Fake.mkWorld [] [] 2 (Some 2%nat)) ∅
       (map (ASend (Some 20%nat)) (pre ++ [st])),
     Ret (Some "unexpected response"%string))
  /\ Fake.sent (world (ResetDevice Fake.h0 s).1) = 2%nat.
Proof.
  intros s pre st.
  pose proof (@ResetDevice_first_failure Fake.collaborators Fake.h0 pre
                (mkCmdSeq (LESetEventMask 0x1F) expSuccess :: bcmResetSeq)
                st s
                (Fake.mkWorld [] [] 1 (Some 2%nat))
                (Fake.mkWorld [] [] 2 (Some 2%nat))
                "unexpected response"%string
                eq_refl eq_refl eq_refl) as [Hrun _].
  split; [exact Hrun |]. rewrite Hrun. reflexivity.
Defined.

(** C3, when no step fails: the twelve steps are sent, in order. *)
Lemma ResetDevice_in_order_witness :
  sends_ok (cmd Fake.h0) (defaultResetSeq ++ bcmResetSeq) (world Fake.s0) =
    Some (Fake.mkWorld [0%Z] [] 12 None)
  /\ ResetDevice Fake.h0 Fake.s0 =
       (mkState (Fake.mkWorld [0%Z] [] 12 None) ∅
          (map (ASend (Some 20%nat)) (defaultResetSeq ++ bcmResetSeq)),
        Ret None).
Proof.
  split; [reflexivity |].
  apply (proj1 (@ResetDevice_in_order Fake.collaborators Fake.h0 Fake.s0)
           (Fake.mkWorld [0%Z] [] 12 None) eq_refl).
Defined.

(** C8, with the event codes of the Bluetooth Core Specification: the
    table of the instance holds five bindings, and Command Complete (0x0E)
    is bound to the callback of the command object. *)
Lemma NewHCI_binds_five_codes_witness :
  NoDup (@five_codes Fake.collaborators) /\
  exists (s' : State) (h : HCI) (e : loc) (tbl : gmap Z Handler),
    NewHCI None 4 Fake.s0 = (s', Ret (Some h)) /\
    evt h = Some e /\
    heap s' !! e = Some (mkEvent tbl) /\
    size tbl = 5%nat /\
    tbl !! 0x0E%Z = Some (HandleComplete 20) /\
    registrations (trace s') =
      [(0x3E%Z, HandleLEMeta 30);
       (0x05%Z, HandleDisconnectionComplete 30);
       (0x13%Z, HandleNumberOfCompletedPkts 30);
       (0x0E%Z, HandleComplete 20);
       (0x0F%Z, HandleStatus 20)].
Proof.
  assert (Hnd : NoDup (@five_codes Fake.collaborators)).
  { unfold five_codes. simpl.
    repeat (apply NoDup_cons_2;
            [rewrite ?not_elem_of_cons; repeat split; try discriminate;
             apply not_elem_of_nil |]).
    apply NoDup_nil_2. }
  split; [exact Hnd |].
  pose proof (@NewHCI_binds_five_codes Fake.collaborators None 4%Z
                Fake.s0 Hnd) as [Hmain _].
  rewrite NewHCI_run in Hmain |- *.
  change (device_NewSocket 1 (world Fake.s0))
    with (Fake.w0, @inr DevRef error "no such device"%string) in Hmain |- *.
  cbv beta iota in Hmain |- *.
  change (@device_NewSocket Fake.collaborators 0 Fake.w0)
    with (Fake.w0, @inl DevRef error 0%nat) in Hmain |- *.
  cbv beta iota in Hmain |- *.
  change (@wired Fake.collaborators None 4 0%nat Fake.w0 (heap Fake.s0)
            (trace Fake.s0 ++ [ANewSocket 1%Z; ANewSocket 0%Z]))
    with (mkState Fake.w0
            (<[fresh (dom (heap Fake.s0)) :=
                 mkEvent (five_bindings 20%nat 30%nat)]> (heap Fake.s0))
            ([ANewSocket 1%Z; ANewSocket 0%Z; ANewCmd 0%nat None;
              ANewL2CAP 20%nat 0%nat None 4%Z; ANewEvent None;
              AHandleEvent (fresh (dom (heap Fake.s0))) 0x3E%Z
                (HandleLEMeta 30%nat);
              AHandleEvent (fresh (dom (heap Fake.s0))) 0x05%Z
                (HandleDisconnectionComplete 30%nat);
              AHandleEvent (fresh (dom (heap Fake.s0))) 0x13%Z
                (HandleNumberOfCompletedPkts 30%nat);
              AHandleEvent (fresh (dom (heap Fake.s0))) 0x0E%Z
                (HandleComplete 20%nat);
              AHandleEvent (fresh (dom (heap Fake.s0))) 0x0F%Z
                (HandleStatus 20%nat)]),
          mkHCI (Some 0%nat) None (Some 20%nat)
                (Some (fresh (dom (heap Fake.s0)))) (Some 30%nat))
    in Hmain |- *.
  cbv beta iota in Hmain |- *.
  destruct Hmain as (e & c & r & He & Hc & Hr & _ & Hheap & Hreg & _ & Hsize
                     & _ & _ & _ & Hcc & _).
  cbn [evt cmd l2c] in He, Hc, Hr.
  injection Hc as <-. injection Hr as <-.
  eexists _, _, e, (five_bindings 20 30).
  split; [reflexivity |]. split; [exact He |].
  split; [rewrite Hheap; apply lookup_insert_eq |].
  split; [exact Hsize |]. split; [exact Hcc |]. exact Hreg.
Defined.

(** C10, at three worlds: one where no socket opens, one where device 1
    opens, one where only device 0 opens. *)
Lemma NewHCI_nil_iff_no_socket_witness :
  NewHCI None 4 Fake.s_none =
    (mkState Fake.w_none ∅ [ANewSocket 1%Z; ANewSocket 0%Z], Ret None)
  /\ (exists (s' : State) (c : CmdRef) (r : L2CRef) (e : loc),
        NewHCI None 4 Fake.s_one =
          (s', Ret (Some (mkHCI (Some 1%nat) None (Some c) (Some e)
                                (Some r))))
        /\ opens (trace s') = [1%Z])
  /\ (exists (s' : State) (c : CmdRef) (r : L2CRef) (e : loc),
        NewHCI None 4 Fake.s0 =
          (s', Ret (Some (mkHCI (Some 0%nat) None (Some c) (Some e)
                                (Some r))))
        /\ opens (trace s') = [1%Z; 0%Z]).
Proof.
  split; [| split].
  - destruct (@NewHCI_nil_iff_no_socket Fake.collaborators None 4%Z
                Fake.s_none) as (Hnone & _ & _).
    apply (Hnone Fake.w_none "no such device"%string
             Fake.w_none "no such device"%string eq_refl eq_refl).
  - destruct (@NewHCI_nil_iff_no_socket Fake.collaborators None 4%Z
                Fake.s_one) as (_ & Hone & _).
    destruct (Hone Fake.w_one 1%nat eq_refl)
      as (s' & c & r & e & Hrun & _ & _ & _ & Hop).
    exists s', c, r, e. split; [exact Hrun | exact Hop].
  - destruct (@NewHCI_nil_iff_no_socket Fake.collaborators None 4%Z Fake.s0)
      as (_ & _ & Hzero).
    destruct (Hzero Fake.w0 "no such device"%string Fake.w0 0%nat
                eq_refl eq_refl)
      as (s' & c & r & e & Hrun & _ & _ & _ & Hop).
    exists s', c, r, e. split; [exact Hrun | exact Hop].
Defined.

(** ** Further properties of the transport *)

Section Coverage.

Context `{Col : Collaborators}.
Local Open Scope go_scope.

(** *** The read loop as a whole *)




Lemma mainLoop_loop (fuel : nat) (h : HCI) (s : State) :
  mainLoop fuel h s = loop fuel h (replicate (Z.to_nat 4096) x00) s.
Proof. reflexivity. Qed.

Lemma reads_app (tr tr' : list Action) :
  reads (tr ++ tr') = reads tr ++ reads tr'.
Proof. apply omap_app. Qed.

Lemma spawned_app (tr tr' : list Action) :
  spawned (tr ++ tr') = spawned tr ++ spawned tr'.
Proof. apply omap_app. Qed.





(** X4: a read that returns a negative count with a nil error makes
    [make([]byte, n)] panic: the loop dies there, and no goroutine is
    started for that read. *)
Theorem loop_negative_count_panics (fuel : nat) (h : HCI)
  (b b' : list byte) (s : State) (d : DevRef) (w' : W) (n : Z) :
  dev h = Some d ->
  dev_Read d b (world s) = (w', Ret (b', n, None)) ->
  (n < 0)%Z ->
  loop (S fuel) h b s =
    (mkState w' (heap s) (trace s ++ [ARead (length b)]),
     Panic (MakesliceLenOutOfRange n)).
Proof.
  intros Hd Hr Hn. simpl. unfold bind, emit, foreign, make, log_Printf, raise.
  simpl. rewrite Hd. simpl. rewrite Hr. simpl.
  destruct (Z.eqb_spec n 0) as [-> | _]; [lia |].
  destruct (Z.ltb_spec n 0) as [_ | ?]; [reflexivity | lia].
Qed.

Lemma loop_action_silent (ext : list Action) :
  forallb loop_action ext = true ->
  sends ext = [] /\ invocations ext = [] /\ registrations ext = [] /\
  opens ext = [].
Proof.
  induction ext as [| a ext IH]; simpl; [auto |].
  intros Hall. apply andb_prop in Hall as [Ha Hext].
  destruct (IH Hext) as (? & ? & ? & ?).
  destruct a; try discriminate Ha; simpl; auto.
Qed.

(** What a run of the loop adds to the trace. *)
Lemma loop_extends (fuel : nat) (h : HCI) (b : list byte) (s : State) :
  exists ext : list Action,
    trace (loop fuel h b s).1 = trace s ++ ext /\
    forallb loop_action ext = true /\
    (length (spawned ext) <= length (reads ext))%nat /\
    (length (reads ext) <= S (length (spawned ext)))%nat /\
    (length (reads ext) <= fuel)%nat /\
    ((loop fuel h b s).2 = Ret Reading -> length (spawned ext) = fuel).
Proof.
  revert b s. induction fuel as [| fuel IH]; intros b s.
  - exists []. simpl. rewrite app_nil_r. repeat split; auto.
  - simpl. unfold bind, emit, foreign, make, log_Printf, raise, ret. simpl.
    destruct (dev h) as [d |]; simpl;
      [| exists [ARead (length b)]; simpl;
         repeat split; auto; try lia; discriminate].
    destruct (dev_Read d b (world s)) as [w [[[b' n] err] | p | c]]; simpl;
      try (exists [ARead (length b)]; simpl;
           repeat split; auto; try lia; discriminate).
    destruct err as [e |]; simpl.
    { exists [ARead (length b); ALog (LogFailedToRead e)].
      rewrite <- app_assoc. simpl. repeat split; auto; try lia; discriminate. }
    destruct (n =? 0)%Z; simpl.
    { exists [ARead (length b); ALog LogReadZero].
      rewrite <- app_assoc. simpl. repeat split; auto; try lia; discriminate. }
    destruct (n <? 0)%Z; simpl.
    { exists [ARead (length b)]. simpl.
      repeat split; auto; try lia; discriminate. }
    match goal with
    | |- context [loop fuel h b' ?st] =>
        destruct (IH b' st) as (ext & Htr & Hall & Hle & Hge & Hfuel & Hrun)
    end.
    exists (ARead (length b)
            :: AGo (copy (replicate (Z.to_nat n) x00) b') :: ext).
    rewrite Htr. simpl.
    split; [rewrite <- !app_assoc; reflexivity |].
    repeat split; auto; lia.
Qed.

(** X3: whatever the link returns and however long it runs, [mainLoop]
    only reads, starts goroutines and logs: it sends no command, calls no
    packet handler itself, registers no event handler and opens no
    socket.  Each read starts at most one goroutine, and every read
    except possibly the last one starts exactly one: no frame is dropped
    and none is handed on twice. *)
Theorem mainLoop_only_reads_and_spawns (fuel : nat) (h : HCI) (s : State) :
  let s' := (mainLoop fuel h s).1 in
  sends (trace s') = sends (trace s) /\
  invocations (trace s') = invocations (trace s) /\
  registrations (trace s') = registrations (trace s) /\
  opens (trace s') = opens (trace s) /\
  exists r g : nat,
    length (reads (trace s')) = (length (reads (trace s)) + r)%nat /\
    length (spawned (trace s')) = (length (spawned (trace s)) + g)%nat /\
    (g <= r)%nat /\ (r <= S g)%nat /\ (r <= fuel)%nat.
Proof.
  intros s'. subst s'. rewrite mainLoop_loop.
  destruct (loop_extends fuel h (replicate (Z.to_nat 4096) x00) s)
    as (ext & Htr & Hall & Hle & Hge & Hfuel & _).
  destruct (loop_action_silent ext Hall) as (Hs & Hi & Hr & Ho).
  rewrite Htr.
  unfold sends, invocations, registrations, opens in *.
  rewrite !omap_app, Hs, Hi, Hr, Ho, !app_nil_r.
  repeat split.
  exists (length (reads ext)), (length (spawned ext)).
  rewrite reads_app, spawned_app, !length_app. repeat split; lia.
Qed.

(** When the link leaves the length of the buffer as it is, every read
    of a run is issued with a buffer of the same length. *)
Lemma loop_buffer_length (fuel : nat) (h : HCI) :
  (forall d b w w' b' n err,
     dev_Read d b w = (w', Ret (b', n, err)) -> length b' = length b) ->
  forall (b : list byte) (s : State),
  exists m : nat,
    reads (trace (loop fuel h b s).1) =
      reads (trace s) ++ replicate m (length b).
Proof.
  intros Hlen. induction fuel as [| fuel IH]; intros b s.
  - exists 0%nat. simpl. rewrite app_nil_r. reflexivity.
  - simpl. unfold bind, emit, foreign, make, log_Printf, raise, ret. simpl.
    destruct (dev h) as [d |]; simpl;
      [| exists 1%nat; rewrite reads_app; reflexivity].
    destruct (dev_Read d b (world s)) as [w [[[b' n] err] | p | c]] eqn:Hr;
      simpl; try (exists 1%nat; rewrite reads_app; reflexivity).
    destruct err as [e |]; simpl.
    { exists 1%nat. rewrite !reads_app. simpl. rewrite app_nil_r.
      reflexivity. }
    destruct (n =? 0)%Z; simpl.
    { exists 1%nat. rewrite !reads_app. simpl. rewrite app_nil_r.
      reflexivity. }
    destruct (n <? 0)%Z; simpl.
    { exists 1%nat. rewrite reads_app. reflexivity. }
    match goal with
    | |- context [loop fuel h b' ?st] => destruct (IH b' st) as (m & Hm)
    end.
    exists (S m). rewrite Hm. simpl. rewrite !reads_app. simpl.
    rewrite app_nil_r, <- app_assoc, (Hlen _ _ _ _ _ _ _ Hr). reflexivity.
Qed.

(** X5: [mainLoop] reuses one buffer of 4096 bytes: on a link whose Read
    leaves the length of the buffer it is given as it is (a Go slice
    cannot be resized by its callee), every read of the run is issued with
    a buffer of 4096 bytes. *)
Theorem mainLoop_reads_4096 (fuel : nat) (h : HCI) (s : State) :
  (forall d b w w' b' n err,
     dev_Read d b w = (w', Ret (b', n, err)) -> length b' = length b) ->
  exists m : nat,
    reads (trace (mainLoop fuel h s).1) =
      reads (trace s) ++ replicate m 4096%nat.
Proof.
  intros Hlen. rewrite mainLoop_loop.
  destruct (loop_buffer_length fuel h Hlen (replicate (Z.to_nat 4096) x00) s)
    as (m & Hm).
  exists m. rewrite Hm, length_replicate. reflexivity.
Qed.


(** *** One frame *)

Lemma packet_action_silent (ext : list Action) :
  forallb packet_action ext = true ->
  sends ext = [] /\ reads ext = [] /\ spawned ext = [] /\
  registrations ext = [] /\ opens ext = [].
Proof.
  induction ext as [| a ext IH]; simpl; [auto 6 |].
  intros Hall. apply andb_prop in Hall as [Ha Hext].
  destruct (IH Hext) as (? & ? & ? & ? & ?).
  destruct a; try discriminate Ha; simpl; auto 6.
Qed.

(** What one frame adds to the trace. *)
Lemma handlePacket_extends (h : HCI) (b : list byte) (s : State) :
  exists ext : list Action,
    trace (handlePacket h b s).1 = trace s ++ ext /\
    forallb packet_action ext = true /\
    (length (invocations ext) <= 1)%nat /\
    (length (logged ext) <= 1)%nat.
Proof.
  destruct b as [| t payload].
  { exists []. simpl. rewrite app_nil_r. auto. }
  go_unfold.
  destruct (Byte.eqb t ptypeCommandPkt).
  { destruct payload as [| b0 [| b1 rest]]; simpl;
      [ exists [ACall H_handleCmd []]
      | exists [ACall H_handleCmd [b0]]
      | exists [ACall H_handleCmd (b0 :: b1 :: rest);
                ALog (LogUnmanagedCmd
                        (Z.lor (uint16 (byte_to_Z b0))
                           (uint16 (Z.shiftl (uint16 (byte_to_Z b1)) 8))))] ];
      rewrite <- ?app_assoc; simpl; auto. }
  destruct (Byte.eqb t ptypeACLDataPkt).
  { destruct (l2c_HandleL2CAP (l2c h) payload (world s))
      as [w [[e |] | p | c]]; simpl;
      [ exists [ACall H_HandleL2CAP payload; ALog (LogHci e payload)]
      | exists [ACall H_HandleL2CAP payload]
      | exists [ACall H_HandleL2CAP payload]
      | exists [ACall H_HandleL2CAP payload] ];
      rewrite <- ?app_assoc; simpl; auto. }
  destruct (Byte.eqb t ptypeSCODataPkt).
  { simpl. eexists [ACall H_handleSCO payload; ALog _].
    rewrite <- app_assoc. simpl. auto. }
  destruct (Byte.eqb t ptypeEventPkt).
  { destruct (evt_Dispatch _ payload (world s))
      as [w [[e |] | p | c]]; simpl;
      [ exists [ACall H_Dispatch payload; ALog (LogHci e payload)]
      | exists [ACall H_Dispatch payload]
      | exists [ACall H_Dispatch payload]
      | exists [ACall H_Dispatch payload] ];
      rewrite <- ?app_assoc; simpl; auto. }
  destruct (Byte.eqb t ptypeVendorPkt).
  { simpl. eexists [ACall H_handleVendor payload; ALog _].
    rewrite <- app_assoc. simpl. auto. }
  simpl. exists [ALog (LogUnknownEvent t payload)]. simpl. auto.
Qed.

(** X8: whatever the frame (empty, of an unknown type, or one on which a
    handler fails), [handlePacket] calls at most one handler and writes at
    most one log line; it never reads the link, never starts a goroutine,
    never sends a command, never opens a socket, and leaves every event
    table as it is. *)
Theorem handlePacket_at_most_one_call (h : HCI) (b : list byte) (s : State) :
  let s' := (handlePacket h b s).1 in
  (length (invocations (trace s')) <= S (length (invocations (trace s))))%nat
  /\ (length (logged (trace s')) <= S (length (logged (trace s))))%nat
  /\ sends (trace s') = sends (trace s)
  /\ reads (trace s') = reads (trace s)
  /\ spawned (trace s') = spawned (trace s)
  /\ registrations (trace s') = registrations (trace s)
  /\ opens (trace s') = opens (trace s)
  /\ heap s' = heap s.
Proof.
  intros s'. subst s'.
  destruct (handlePacket_extends h b s) as (ext & Htr & Hall & Hcall & Hlog).
  destruct (packet_action_silent ext Hall) as (Hs & Hr & Hg & Hreg & Ho).
  rewrite Htr, keeps_heap_handlePacket.
  unfold invocations, logged, sends, reads, spawned, registrations, opens
    in *.
  rewrite !omap_app, !length_app, Hs, Hr, Hg, Hreg, Ho, !app_nil_r.
  repeat split; lia.
Qed.

(** X7: on an ACL frame the payload, without the tag byte, goes to
    l2c.HandleL2CAP once.  When the handler returns nil nothing is logged;
    when it returns an error the error is logged with that payload and
    [handlePacket] still returns; when it panics or exits, so does
    [handlePacket].  The world is the one the handler left. *)
Theorem handlePacket_acl_outcome (h : HCI) (payload : list byte)
  (s : State) :
  let o := l2c_HandleL2CAP (l2c h) payload (world s) in
  let r := handlePacket h (ptypeACLDataPkt :: payload) s in
  world r.1 = o.1 /\
  match o.2 with
  | Ret None =>
      r.2 = Ret tt /\
      trace r.1 = trace s ++ [ACall H_HandleL2CAP payload]
  | Ret (Some e) =>
      r.2 = Ret tt /\
      trace r.1 = trace s ++ [ACall H_HandleL2CAP payload;
                              ALog (LogHci e payload)]
  | Panic p =>
      r.2 = Panic p /\
      trace r.1 = trace s ++ [ACall H_HandleL2CAP payload]
  | Exit c =>
      r.2 = Exit c /\
      trace r.1 = trace s ++ [ACall H_HandleL2CAP payload]
  end.
Proof.
  intros o r. subst o r. go_unfold.
  destruct (l2c_HandleL2CAP (l2c h) payload (world s))
    as [w [[e |] | p | c]]; simpl; rewrite <- ?app_assoc; auto.
Qed.

(** *** Bring-up, read backwards *)

(** How a pass over a list of steps can end. *)
Lemma forRange_inv (h : HCI) (seq : list cmdSeq) (s : State) :
  match forRange h seq s with
  | (s', Ret None) =>
      sends_ok (cmd h) seq (world s) = Some (world s') /\
      trace s' = trace s ++ map (ASend (cmd h)) seq
  | (s', o) =>
      exists (pre post : list cmdSeq) (st : cmdSeq) (w1 : W),
        seq = pre ++ st :: post /\
        sends_ok (cmd h) pre (world s) = Some w1 /\
        cmd_SendAndCheckResp (cmd h) (cp st) (exp st) w1 = (world s', o) /\
        trace s' = trace s ++ map (ASend (cmd h)) (pre ++ [st])
  end.
Proof.
  revert s. induction seq as [| st seq IH]; intros s.
  - simpl. rewrite app_nil_r. auto.
  - simpl. unfold bind, emit, foreign, Cmd. simpl.
    destruct (cmd_SendAndCheckResp (cmd h) (cp st) (exp st) (world s))
      as [w1 [[e |] | p | c]] eqn:Hst; simpl;
      try (exists [], seq, st, (world s); simpl; auto).
    specialize (IH (mkState w1 (heap s) (trace s ++ [ASend (cmd h) st]))).
    destruct (forRange h seq _) as [s' [[e |] | p | c]]; simpl in IH |- *.
    2: { destruct IH as [Hok Htr]. rewrite Htr, <- app_assoc. auto. }
    all: destruct IH as (pre & post & st' & w2 & Hseq & Hok & Hcall & Htr);
      exists (st :: pre), post, st', w2; simpl; rewrite Hst, Htr, <- app_assoc;
      subst seq; auto.
Qed.

Lemma forRange_abort (h : HCI) (pre post : list cmdSeq) (st : cmdSeq)
  (s : State) (w1 w2 : W) (o : outcome (option error)) :
  sends_ok (cmd h) pre (world s) = Some w1 ->
  cmd_SendAndCheckResp (cmd h) (cp st) (exp st) w1 = (w2, o) ->
  o <> Ret None ->
  forRange h (pre ++ st :: post) s =
    (mkState w2 (heap s) (trace s ++ map (ASend (cmd h)) (pre ++ [st])), o).
Proof.
  intros Hpre Hst Ho. rewrite forRange_app. unfold bind.
  rewrite (forRange_all_ok h pre s w1 Hpre). simpl.
  unfold bind, emit, foreign, Cmd. simpl. rewrite Hst. simpl.
  rewrite map_app, <- app_assoc.
  destruct o as [[e |] | p | c]; try reflexivity. contradiction.
Qed.

Lemma forRange_prefix_pos (h : HCI) (st : cmdSeq) (seq : list cmdSeq)
  (s : State) :
  exists k : nat,
    (1 <= k <= S (length seq))%nat /\
    trace (forRange h (st :: seq) s).1 =
      trace s ++ map (ASend (cmd h)) (take k (st :: seq)).
Proof.
  simpl. unfold bind, emit, foreign, Cmd. simpl.
  destruct (cmd_SendAndCheckResp (cmd h) (cp st) (exp st) (world s))
    as [w1 [[e |] | p | c]]; simpl.
  2: { destruct (forRange_prefix h seq
                   (mkState w1 (heap s) (trace s ++ [ASend (cmd h) st])))
         as (k & Hk & Htr & _).
       exists (S k). split; [lia |]. rewrite Htr. simpl.
       rewrite <- app_assoc. reflexivity. }
  all: exists 1%nat; simpl; rewrite ?take_0; split; [lia | reflexivity].
Qed.

Lemma logged_ASend (c : option CmdRef) (seq : list cmdSeq) :
  logged (map (ASend c) seq) = [].
Proof. induction seq as [| st seq IH]; [reflexivity | exact IH]. Qed.

(** X10: [ResetDevice] always sends at least one command and at most
    twelve, and the first one is Reset.  It does nothing but send: the
    trace grows by a prefix of the baseline list followed by the vendor
    list; nothing is logged (a failure is reported by the return value
    only) and the event tables are untouched. *)
Theorem ResetDevice_sends_Reset_first (h : HCI) (s : State) :
  let s' := (ResetDevice h s).1 in
  exists (k : nat) (rest : list cmdSeq),
    (1 <= k <= 12)%nat /\
    trace s' =
      trace s ++
      map (ASend (cmd h)) (take k (defaultResetSeq ++ bcmResetSeq)) /\
    sends (trace s') = sends (trace s) ++ mkCmdSeq Reset expSuccess :: rest /\
    length rest = pred k /\
    logged (trace s') = logged (trace s) /\
    heap s' = heap s.
Proof.
  intros s'. subst s'. rewrite keeps_heap_ResetDevice, ResetDevice_forRange.
  assert (Hall : defaultResetSeq ++ bcmResetSeq =
                 mkCmdSeq Reset expSuccess
                 :: drop 1 (defaultResetSeq ++ bcmResetSeq))
    by reflexivity.
  rewrite Hall.
  destruct (forRange_prefix_pos h (mkCmdSeq Reset expSuccess)
              (drop 1 (defaultResetSeq ++ bcmResetSeq)) s)
    as (k & Hk & Htr).
  destruct k as [| k]; [lia |].
  exists (S k), (take k (drop 1 (defaultResetSeq ++ bcmResetSeq))).
  split; [simpl in Hk; lia |]. split; [exact Htr |].
  rewrite Htr. unfold logged at 1.
  rewrite sends_app, sends_ASend, omap_app.
  fold (logged (trace s)).
  fold (logged (map (ASend (cmd h))
                  (take (S k) (mkCmdSeq Reset expSuccess
                     :: drop 1 (defaultResetSeq ++ bcmResetSeq))))).
  rewrite logged_ASend, app_nil_r.
  split; [reflexivity |].
  split; [rewrite length_take; simpl in Hk |- *; lia |].
  split; reflexivity.
Qed.

(** X11: [ResetDevice] returns nil only when every one of the twelve steps
    has been sent and has succeeded, in the order of the two lists. *)
Theorem ResetDevice_nil_only_if_all_succeed (h : HCI) (s s' : State) :
  ResetDevice h s = (s', Ret None) ->
  sends_ok (cmd h) (defaultResetSeq ++ bcmResetSeq) (world s) =
    Some (world s') /\
  sends (trace s') = sends (trace s) ++ defaultResetSeq ++ bcmResetSeq.
Proof.
  intros Hrun. rewrite ResetDevice_forRange in Hrun.
  pose proof (forRange_inv h (defaultResetSeq ++ bcmResetSeq) s) as Hinv.
  rewrite Hrun in Hinv. destruct Hinv as [Hok Htr].
  split; [exact Hok |]. rewrite Htr, sends_app, sends_ASend. reflexivity.
Qed.

(** X12: an error returned by [ResetDevice] is the error of the last
    command it sent: every command before it had succeeded, and no
    command after it was sent.  [ResetDevice] does not make up an error
    of its own, and does not go on after one. *)
Theorem ResetDevice_error_is_of_last_command (h : HCI) (s s' : State)
  (e : error) :
  ResetDevice h s = (s', Ret (Some e)) ->
  exists (pre post : list cmdSeq) (st : cmdSeq) (w1 : W),
    defaultResetSeq ++ bcmResetSeq = pre ++ st :: post /\
    sends_ok (cmd h) pre (world s) = Some w1 /\
    cmd_SendAndCheckResp (cmd h) (cp st) (exp st) w1 =
      (world s', Ret (Some e)) /\
    sends (trace s') = sends (trace s) ++ pre ++ [st].
Proof.
  intros Hrun. rewrite ResetDevice_forRange in Hrun.
  pose proof (forRange_inv h (defaultResetSeq ++ bcmResetSeq) s) as Hinv.
  rewrite Hrun in Hinv.
  destruct Hinv as (pre & post & st & w1 & Hseq & Hok & Hcall & Htr).
  exists pre, post, st, w1. repeat split; try assumption.
  rewrite Htr, sends_app, sends_ASend. reflexivity.
Qed.

(** X13: when the Command Subsystem panics or exits on a command, the
    commands before it having succeeded, [ResetDevice] ends the same way
    at that command: nothing is recovered and no later command is
    sent. *)
Theorem ResetDevice_crash_propagates (h : HCI) (pre post : list cmdSeq)
  (st : cmdSeq) (s : State) (w1 w2 : W) (o : outcome (option error)) :
  defaultResetSeq ++ bcmResetSeq = pre ++ st :: post ->
  sends_ok (cmd h) pre (world s) = Some w1 ->
  cmd_SendAndCheckResp (cmd h) (cp st) (exp st) w1 = (w2, o) ->
  (forall r, o <> Ret r) ->
  ResetDevice h s =
    (mkState w2 (heap s) (trace s ++ map (ASend (cmd h)) (pre ++ [st])), o)
  /\ sends (trace (ResetDevice h s).1) = sends (trace s) ++ pre ++ [st].
Proof.
  intros Hsplit Hpre Hst Ho.
  assert (Hrun : ResetDevice h s =
    (mkState w2 (heap s) (trace s ++ map (ASend (cmd h)) (pre ++ [st])), o)).
  { rewrite ResetDevice_forRange, Hsplit.
    apply (forRange_abort h pre post st s w1 w2 o Hpre Hst (Ho None)). }
  split; [exact Hrun |]. rewrite Hrun. simpl.
  rewrite sends_app, sends_ASend. reflexivity.
Qed.

(** *** Construction, and the first Event frame after it *)

(** X14: [NewHCI] returns nil only when device 1 and then device 0 both
    failed to open; it has then asked for these two sockets and done
    nothing else: no collaborator is built and no event table exists. *)
Theorem NewHCI_nil_only_if_no_socket (l : option Logger) (maxConn : Z)
  (s s' : State) :
  NewHCI l maxConn s = (s', Ret None) ->
  exists (w1 : W) (e1 e0 : error),
    device_NewSocket 1 (world s) = (w1, inr e1) /\
    device_NewSocket 0 w1 = (world s', inr e0) /\
    trace s' = trace s ++ [ANewSocket 1%Z; ANewSocket 0%Z] /\
    heap s' = heap s.
Proof.
  intros Hrun. rewrite NewHCI_run in Hrun.
  destruct (device_NewSocket 1 (world s)) as [w1 [d | e1]] eqn:H1.
  - destruct (wired _ _ _ _ _ _) as [s1 h1]. discriminate Hrun.
  - destruct (device_NewSocket 0 w1) as [w0 [d | e0]] eqn:H0.
    + destruct (wired _ _ _ _ _ _) as [s1 h1]. discriminate Hrun.
    + injection Hrun as <-. exists w1, e1, e0. simpl.
      split; [reflexivity |]. split; [exact H0 |]. split; reflexivity.
Qed.

(** X9: the table that evt.Dispatch is given on an Event frame is the one
    [NewHCI] filled: after a [NewHCI] that returned the instance [h], in
    any later state with the same heap, [handlePacket] on an Event frame
    calls Dispatch once on the five bindings, with the payload without its
    tag byte; an error of Dispatch is logged with that payload and
    swallowed, a panic or exit is not caught. *)
Theorem NewHCI_table_reaches_Dispatch (l : option Logger) (maxConn : Z)
  (s s' : State) (h : HCI) :
  NewHCI l maxConn s = (s', Ret (Some h)) ->
  exists (c : CmdRef) (r : L2CRef),
    cmd h = Some c /\ l2c h = Some r /\
    forall (w : W) (tr : list Action) (payload : list byte),
      let o := evt_Dispatch (Some (mkEvent (five_bindings c r))) payload w in
      let res := handlePacket h (ptypeEventPkt :: payload)
                   (mkState w (heap s') tr) in
      world res.1 = o.1 /\
      match o.2 with
      | Ret None =>
          res.2 = Ret tt /\ trace res.1 = tr ++ [ACall H_Dispatch payload]
      | Ret (Some e) =>
          res.2 = Ret tt /\
          trace res.1 = tr ++ [ACall H_Dispatch payload;
                               ALog (LogHci e payload)]
      | Panic p =>
          res.2 = Panic p /\ trace res.1 = tr ++ [ACall H_Dispatch payload]
      | Exit x =>
          res.2 = Exit x /\ trace res.1 = tr ++ [ACall H_Dispatch payload]
      end.
Proof.
  intros Hrun.
  assert (Hw : exists d w tr0,
            (s', h) = wired l maxConn d w (heap s) tr0).
  { rewrite NewHCI_run in Hrun.
    destruct (device_NewSocket 1 (world s)) as [w1 [d | e1]].
    - exists d, w1, (trace s ++ [ANewSocket 1%Z]).
      destruct (wired _ _ _ _ _ _) as [s1 h1].
      injection Hrun as <- <-. reflexivity.
    - destruct (device_NewSocket 0 w1) as [w0 [d | e0]];
        [| discriminate Hrun].
      exists d, w0, (trace s ++ [ANewSocket 1%Z; ANewSocket 0%Z]).
      destruct (wired _ _ _ _ _ _) as [s1 h1].
      injection Hrun as <- <-. reflexivity. }
  destruct Hw as (d & w0 & tr0 & Hw).
  destruct (wired_spec l maxConn d w0 (heap s) tr0)
    as (e & c & r & w' & _ & Hh & Hheap & _).
  rewrite <- Hw in Hh, Hheap. simpl in Hh, Hheap. subst h.
  exists c, r. split; [reflexivity |]. split; [reflexivity |].
  intros w tr payload o res. subst o res. go_unfold.
  rewrite Hheap, lookup_insert_eq.
  destruct (evt_Dispatch (Some (mkEvent (five_bindings c r))) payload w)
    as [w2 [[err |] | p | x]]; simpl; rewrite <- ?app_assoc; auto.
Qed.

(** *** Opcodes *)

Lemma byte_of_Z_to_Z (z : Z) :
  (0 <= z < 256)%Z ->
  byte_to_Z (default x00 (Byte.of_N (Z.to_N z))) = z.
Proof.
  intros Hz. unfold byte_to_Z.
  destruct (Byte.of_N (Z.to_N z)) as [b |] eqn:Hb.
  - simpl. apply Byte.to_of_N in Hb. rewrite Hb. lia.
  - apply Byte.of_N_None_iff in Hb. lia.
Qed.

(** X15: the decoding of [handleCmd] reaches every 16-bit opcode: on the
    payload that starts with the low byte and then the high byte of [op],
    the opcode logged is [op]. *)
Theorem handleCmd_decodes_every_opcode (h : HCI) (op : Z)
  (rest : list byte) (s : State) :
  (0 <= op < 65536)%Z ->
  handleCmd h ((opcode_bytes op).1 :: (opcode_bytes op).2 :: rest) s =
    (mkState (world s) (heap s) (trace s ++ [ALog (LogUnmanagedCmd op)]),
     Ret None).
Proof.
  intros Hop. rewrite handleCmd_two_bytes. unfold opcode_bytes. simpl.
  rewrite !byte_of_Z_to_Z by (Z.div_mod_to_equations; lia).
  replace (op mod 256 + 256 * (op / 256))%Z with op
    by (Z.div_mod_to_equations; lia).
  reflexivity.
Qed.

(** *** Why the loop returns, and which frames reach a collaborator *)



(** X17: only an ACL frame and an Event frame reach a collaborator: on a
    frame with any other tag (Command, SCO, Vendor or an unknown one), and
    on the empty frame, [handlePacket] leaves the world of the
    collaborators exactly as it was. *)
Theorem handlePacket_other_tags_keep_world (h : HCI) (b : list byte)
  (s : State) :
  (forall payload, b <> ptypeACLDataPkt :: payload) ->
  (forall payload, b <> ptypeEventPkt :: payload) ->
  world (handlePacket h b s).1 = world s.
Proof.
  intros Hacl Hevt. destruct b as [| t payload]; [reflexivity |].
  destruct t;
    try (exfalso; apply (Hacl payload); reflexivity);
    try (exfalso; apply (Hevt payload); reflexivity);
    try reflexivity.
  destruct payload as [| b0 [| b1 rest]]; reflexivity.
Qed.

End Coverage.

(** ** The further properties on the scripted collaborators *)



(** X4, on a link that returns -1 and a nil error. *)
Lemma loop_negative_count_panics_witness :
  let s := mkState (Fake.mkWorld [] [([], (-1)%Z, None)] 0 None) ∅ [] in
  loop 5 Fake.h0 [x00; x00] s =
    (mkState (Fake.mkWorld [] [] 0 None) ∅ [ARead 2],
     Panic (MakesliceLenOutOfRange (-1))).
Proof.
  intros s.
  apply (@loop_negative_count_panics Fake.collaborators 4 Fake.h0
           [x00; x00] [x00; x00] s 0%nat (Fake.mkWorld [] [] 0 None)
           (-1)%Z eq_refl eq_refl eq_refl).
Defined.

(** The scripted link leaves the length of the buffer as it is. *)
Lemma Fake_Read_keeps_length (d : DevRef) (b : list byte)
  (w w' : Fake.scripted) (b' : list byte) (n : Z) (err : option error) :
  Fake.Read d b w = (w', Ret (b', n, err)) -> length b' = length b.
Proof.
  unfold Fake.Read. destruct (Fake.script w) as [| [[data m] e] rest];
    intros Hr; injection Hr as _ <- _ _; [reflexivity | apply length_copy].
Qed.

(** X5, on the scripted link. *)
Lemma mainLoop_reads_4096_witness :
  let s := mkState (Fake.mkWorld []
                      [([x04; x0e], 2%Z, None); ([], 0%Z, None)] 0 None)
             ∅ [] in
  exists m : nat,
    reads (trace (mainLoop 10 Fake.h0 s).1) = replicate m 4096%nat.
Proof.
  intros s.
  apply (@mainLoop_reads_4096 Fake.collaborators 10 Fake.h0 s
           Fake_Read_keeps_length).
Defined.


(** X7 at work: the ACL handler that rejects an empty payload has its
    error logged, and the one that panics takes [handlePacket] with it. *)
Example handlePacket_acl_error_and_panic :
  @handlePacket Crash.collaborators Fake.h0 [x02] Crash.s_idle =
    (@mkState Crash.collaborators Fake.w_none ∅
       [ACall H_HandleL2CAP []; ALog (LogHci "short ACL frame" [])],
     Ret tt)
  /\ @handlePacket Crash.collaborators Fake.h0 [x02; xff] Crash.s_idle =
       (@mkState Crash.collaborators Fake.w_none ∅
          [ACall H_HandleL2CAP [xff]],
        Panic (ForeignPanic "bad ACL handle")).
Proof. split; reflexivity. Qed.

(** X11, when the twelve steps succeed. *)
Lemma ResetDevice_nil_only_if_all_succeed_witness :
  ResetDevice Fake.h0 Fake.s0 =
    (mkState (Fake.mkWorld [0%Z] [] 12 None) ∅
       (map (ASend (Some 20%nat)) (defaultResetSeq ++ bcmResetSeq)),
     Ret None)
  /\ sends_ok (Some 20%nat) (defaultResetSeq ++ bcmResetSeq) Fake.w0 =
       Some (Fake.mkWorld [0%Z] [] 12 None).
Proof.
  assert (Hrun : ResetDevice Fake.h0 Fake.s0 =
    (mkState (Fake.mkWorld [0%Z] [] 12 None) ∅
       (map (ASend (Some 20%nat)) (defaultResetSeq ++ bcmResetSeq)),
     Ret None)) by reflexivity.
  split; [exact Hrun |].
  destruct (@ResetDevice_nil_only_if_all_succeed Fake.collaborators
              Fake.h0 Fake.s0 _ Hrun) as [Hok _].
  exact Hok.
Defined.

(** X12, when the second step fails: the error is the one of
    SetEventMask, the second command. *)
Lemma ResetDevice_error_is_of_last_command_witness :
  let s := mkState (Fake.mkWorld [] [] 0 (Some 2%nat)) ∅ [] in
  exists (pre post : list cmdSeq) (st : cmdSeq),
    defaultResetSeq ++ bcmResetSeq = pre ++ st :: post /\
    sends (trace (ResetDevice Fake.h0 s).1) = pre ++ [st] /\
    length pre = 1%nat.
Proof.
  intros s.
  assert (Hrun : ResetDevice Fake.h0 s =
    (mkState (Fake.mkWorld [] [] 2 (Some 2%nat)) ∅
       (map (ASend (Some 20%nat))
          [mkCmdSeq Reset expSuccess;
           mkCmdSeq (SetEventMask 0x3dbff807fffbffff) expSuccess]),
     Ret (Some "unexpected response"%string))) by reflexivity.
  destruct (@ResetDevice_error_is_of_last_command Fake.collaborators
              Fake.h0 s _ _ Hrun) as (pre & post & st & w1 & Hsplit & _ & _
                                      & Hsends).
  exists pre, post, st. rewrite Hrun. simpl in Hsends |- *.
  split; [exact Hsplit |]. split; [exact Hsends |].
  apply (f_equal length) in Hsends. rewrite length_app in Hsends.
  simpl in Hsends. lia.
Defined.

(** X13, with a Command Subsystem that panics on the second command. *)
Lemma ResetDevice_crash_propagates_witness :
  @ResetDevice Crash.collaborators Fake.h0 Crash.s_crash =
    (@mkState Crash.collaborators (Fake.mkWorld [] [] 2 (Some 2%nat)) ∅
       (map (ASend (Some 20%nat))
          [mkCmdSeq Reset expSuccess;
           mkCmdSeq (SetEventMask 0x3dbff807fffbffff) expSuccess]),
     Panic (ForeignPanic "write on closed link")).
Proof.
  destruct (@ResetDevice_crash_propagates Crash.collaborators Fake.h0
              [mkCmdSeq Reset expSuccess]
              (mkCmdSeq (LESetEventMask 0x1F) expSuccess :: bcmResetSeq)
              (mkCmdSeq (SetEventMask 0x3dbff807fffbffff) expSuccess)
              Crash.s_crash
              (Fake.mkWorld [] [] 1 (Some 2%nat))
              (Fake.mkWorld [] [] 2 (Some 2%nat))
              (Panic (ForeignPanic "write on closed link"))
              eq_refl eq_refl eq_refl
              (fun r Hr => eq_ind (Panic (ForeignPanic "write on closed link"))
                             (fun o => match o with
                                       | Panic _ => True
                                       | _ => False
                                       end) I (Ret r) Hr))
    as [Hrun _].
  exact Hrun.
Defined.

(** X14, in the world where no socket opens. *)
Lemma NewHCI_nil_only_if_no_socket_witness :
  NewHCI None 4 Fake.s_none =
    (mkState Fake.w_none ∅ [ANewSocket 1%Z; ANewSocket 0%Z], Ret None)
  /\ exists e1 e0 : error,
       device_NewSocket 1 Fake.w_none = (Fake.w_none, inr e1) /\
       device_NewSocket 0 Fake.w_none = (Fake.w_none, inr e0).
Proof.
  assert (Hrun : NewHCI None 4 Fake.s_none =
    (mkState Fake.w_none ∅ [ANewSocket 1%Z; ANewSocket 0%Z], Ret None))
    by reflexivity.
  split; [exact Hrun |].
  destruct (@NewHCI_nil_only_if_no_socket Fake.collaborators None 4%Z
              Fake.s_none _ Hrun) as (w1 & e1 & e0 & H1 & H0 & _).
  assert (Hw : w1 = Fake.w_none) by (injection H1 as <- _; reflexivity).
  subst w1. exists e1, e0. split; [exact H1 | exact H0].
Defined.

(** X15, at the opcode of Reset, 0x0C03: the bytes are 0x03, 0x0C. *)
Lemma handleCmd_decodes_every_opcode_witness :
  opcode_bytes 0x0C03 = (x03, x0c) /\
  handleCmd Fake.h0 [x03; x0c; x00] Fake.s0 =
    (mkState Fake.w0 ∅ [ALog (LogUnmanagedCmd 0x0C03)], Ret None).
Proof.
  split; [reflexivity |].
  apply (@handleCmd_decodes_every_opcode Fake.collaborators Fake.h0
           0x0C03%Z [x00] Fake.s0).
  lia.
Defined.

(** X9, after the construction on the scripted collaborators: Command
    Complete (0x0E) finds its handler in the table and nothing is logged;
    the code 0x99 is not in the table, and the error of Dispatch is
    logged. *)
Lemma NewHCI_table_reaches_Dispatch_witness :
  let s' := (NewHCI None 4 Fake.s0).1 in
  (handlePacket Fake.h0 [x04; x0e; x01] s').2 = Ret tt
  /\ trace (handlePacket Fake.h0 [x04; x0e; x01] s').1 =
       trace s' ++ [ACall H_Dispatch [x0e; x01]]
  /\ trace (handlePacket Fake.h0 [x04; x99] s').1 =
       trace s' ++ [ACall H_Dispatch [x99];
                    ALog (LogHci "unhandled event" [x99])].
Proof.
  intros s'.
  assert (Hrun : NewHCI None 4 Fake.s0 = (s', Ret (Some Fake.h0)))
    by (vm_compute; reflexivity).
  destruct (@NewHCI_table_reaches_Dispatch Fake.collaborators None 4%Z
              Fake.s0 s' Fake.h0 Hrun) as (c & r & Hc & Hr & Hall).
  injection Hc as <-. injection Hr as <-.
  pose proof (Hall (world s') (trace s') [x0e; x01]) as [_ H1].
  pose proof (Hall (world s') (trace s') [x99]) as [_ H2].
  clear Hall Hrun.
  assert (E1 : (evt_Dispatch (Some (mkEvent (five_bindings 20 30)))
                  [x0e; x01] (world s')).2 = Ret None)
    by (vm_compute; reflexivity).
  assert (E2 : (evt_Dispatch (Some (mkEvent (five_bindings 20 30)))
                  [x99] (world s')).2 =
               Ret (Some "unhandled event"%string))
    by (vm_compute; reflexivity).
  rewrite E1 in H1. rewrite E2 in H2.
  change (mkState (world s') (heap s') (trace s')) with s' in H1, H2.
  destruct H1 as [H1o H1t]. destruct H2 as [_ H2t].
  split; [exact H1o |]. split; [exact H1t | exact H2t].
Defined.


(** X17, on a Command frame. *)
Lemma handlePacket_other_tags_keep_world_witness :
  world (handlePacket Fake.h0 [x01; x03; x0c; x00] Fake.s0).1 = Fake.w0.
Proof.
  apply (@handlePacket_other_tags_keep_world Fake.collaborators Fake.h0
           [x01; x03; x0c; x00] Fake.s0);
    intros payload Heq; discriminate Heq.
Defined.
